(** * app-control-stock: the scan-record service of [backend/server.js]

    A shallow embedding of the Express handlers of the inventory-scan
    tracker and of the SQL statements they send to the [scanned_products]
    table, in both deployments of the repository:

    - [backend/server.js] ([code INTEGER]), and
    - the stricter one ([code VARCHAR(50)], a longer validation of [code]
      in [POST /save], [parseInt] on the quantity).

    Layers, leaf first: JavaScript values and the built-ins the handlers
    call ([!], [typeof], [isNaN], [parseInt], [.length], [.toString()]);
    the table and the six SQL statements; a state-and-exception monad for
    [async] handlers ([await pool.query], [try]/[catch],
    [res.status(..).json(..)]); the handlers; then the properties.

    Conventions of the model:

    - a JavaScript number is an integer (as [Z]) and prints as its decimal
      numeral; fractions, arrays and objects in a body are not modelled;
    - a string is a sequence of characters below 256, one [ascii] each,
      which is at once a code unit for [.length] and a character for the
      store;
    - the store is PostgreSQL as the statements use it: parameters travel
      as text and are read by the column's input function, [INTEGER] is
      32-bit, [id SERIAL] draws from a sequence, a text column takes any
      string; rows are kept in insertion order and groups in order of first
      occurrence (the store promises no order and no property below leans
      on one); sums are exact;
    - what the environment decides is an oracle in the world: whether the
      connection fails for a statement, whether the xlsx writer fails, the
      clock;
    - the middlewares (CORS, basic auth, static files) are left out: a
      request is what reaches a handler. *)

From Stdlib Require Import ZArith Ascii String List Decimal DecimalString DecimalPos.
From stdpp Require Import base numbers decidable option list strings sorting.

Local Open Scope Z_scope.

(** ** JavaScript values

    The request body is parsed JSON.  Numbers are modelled by their integer
    value (fractions, arrays and objects are outside the model); a string is
    a sequence of code units, one [ascii] each.  [JNaN] is never in a parsed
    body; [parseInt] produces it. *)

Inductive JsValue : Type :=
| JUndefined
| JNull
| JBool (b : bool)
| JNumber (n : Z)
| JNaN
| JString (s : string).

#[global] Instance JsValue_eq_dec : EqDecision JsValue.
Proof. solve_decision. Defined.

(** [!v]: the falsy values are [undefined], [null], [false], [0], [NaN]
    and the empty string. *)
Definition js_not (v : JsValue) : bool :=
  match v with
  | JUndefined | JNull => true
  | JBool b => negb b
  | JNumber n => n =? 0
  | JNaN => true
  | JString s => bool_decide (s = "")
  end.

(** [typeof v]. *)
Definition typeof (v : JsValue) : string :=
  match v with
  | JUndefined => "undefined"
  | JNull => "object"
  | JBool _ => "boolean"
  | JNumber _ | JNaN => "number"
  | JString _ => "string"
  end.

(** [n.toString()] / [String(n)] for an integer [n]: its decimal numeral. *)
Definition Number_toString (n : Z) : string :=
  NilZero.string_of_int (Z.to_int n).

(** [String(v)], the [ToString] conversion. *)
Definition ToString (v : JsValue) : string :=
  match v with
  | JUndefined => "undefined"
  | JNull => "null"
  | JBool true => "true"
  | JBool false => "false"
  | JNumber n => Number_toString n
  | JNaN => "NaN"
  | JString s => s
  end.

(** *** Characters *)

Definition char_code (c : ascii) : Z := Z.of_N (N_of_ascii c).

Definition is_digit (c : ascii) : bool :=
  (48 <=? char_code c) && (char_code c <=? 57).

Definition digit_value (c : ascii) : Z := char_code c - 48.

(** Hexadecimal digit value, for the ["0x"] form of [parseInt]. *)
Definition hex_value (c : ascii) : option Z :=
  let n := char_code c in
  if (48 <=? n) && (n <=? 57) then Some (n - 48)
  else if (97 <=? n) && (n <=? 102) then Some (n - 87)
  else if (65 <=? n) && (n <=? 70) then Some (n - 55)
  else None.

Definition is_hex_digit (c : ascii) : bool := bool_decide (is_Some (hex_value c)).
Definition is_octal_digit (c : ascii) : bool :=
  (48 <=? char_code c) && (char_code c <=? 55).
Definition is_binary_digit (c : ascii) : bool :=
  (48 <=? char_code c) && (char_code c <=? 49).

(** ECMAScript [WhiteSpace] and [LineTerminator] among the code units below
    256: TAB, LF, VT, FF, CR, SP and NBSP. *)
Definition is_js_space (c : ascii) : bool :=
  let n := char_code c in
  ((9 <=? n) && (n <=? 13)) || (n =? 32) || (n =? 160).

(** C [isspace], as the store's integer input uses it. *)
Definition is_c_space (c : ascii) : bool :=
  let n := char_code c in
  ((9 <=? n) && (n <=? 13)) || (n =? 32).

Definition chars (s : string) : list ascii := list_ascii_of_string s.

Fixpoint drop_while {A} (p : A -> bool) (l : list A) : list A :=
  match l with
  | [] => []
  | x :: l' => if p x then drop_while p l' else l
  end.

Fixpoint take_while {A} (p : A -> bool) (l : list A) : list A :=
  match l with
  | [] => []
  | x :: l' => if p x then x :: take_while p l' else []
  end.

Definition trim_with (p : ascii -> bool) (l : list ascii) : list ascii :=
  rev (drop_while p (rev (drop_while p l))).

(** *** [Number(s)] is not [NaN]: the [StringNumericLiteral] grammar *)

Definition all_digits (p : ascii -> bool) (l : list ascii) : bool :=
  forallb p l.

(** [DecimalDigits], one or more. *)
Definition decimal_digits (l : list ascii) : bool :=
  negb (bool_decide (l = [])) && all_digits is_digit l.

(** [ExponentPart], optional: nothing, or [e]/[E], an optional sign, digits. *)
Definition exponent_part_opt (l : list ascii) : bool :=
  match l with
  | [] => true
  | c :: l' =>
      if bool_decide (c = "e"%char) || bool_decide (c = "E"%char) then
        match l' with
        | s :: l'' =>
            if bool_decide (s = "+"%char) || bool_decide (s = "-"%char)
            then decimal_digits l''
            else decimal_digits l'
        | [] => false
        end
      else false
  end.

(** [StrUnsignedDecimalLiteral]. *)
Definition str_unsigned_decimal (l : list ascii) : bool :=
  if bool_decide (l = chars "Infinity") then true
  else
    let int_part := take_while is_digit l in
    let rest := drop_while is_digit l in
    match rest with
    | c :: rest' =>
        if bool_decide (c = "."%char) then
          let frac := take_while is_digit rest' in
          negb (bool_decide (int_part = []) && bool_decide (frac = []))
          && exponent_part_opt (drop_while is_digit rest')
        else negb (bool_decide (int_part = [])) && exponent_part_opt rest
    | [] => negb (bool_decide (int_part = []))
    end.

(** [StrDecimalLiteral]: an optional sign in front. *)
Definition str_decimal (l : list ascii) : bool :=
  match l with
  | c :: l' =>
      if bool_decide (c = "+"%char) || bool_decide (c = "-"%char)
      then str_unsigned_decimal l'
      else str_unsigned_decimal l
  | [] => false
  end.

(** [NonDecimalIntegerLiteral]: [0x], [0o], [0b] forms, unsigned. *)
Definition non_decimal_integer (l : list ascii) : bool :=
  match l with
  | z :: p :: ds =>
      bool_decide (z = "0"%char) && negb (bool_decide (ds = [])) &&
      (if bool_decide (p = "x"%char) || bool_decide (p = "X"%char)
       then all_digits is_hex_digit ds
       else if bool_decide (p = "o"%char) || bool_decide (p = "O"%char)
       then all_digits is_octal_digit ds
       else if bool_decide (p = "b"%char) || bool_decide (p = "B"%char)
       then all_digits is_binary_digit ds
       else false)
  | _ => false
  end.

(** [isNaN(s)] for a string [s]: [Number(s)] is [NaN] unless [s], trimmed
    of white space, is empty (then it is [0]) or a numeric literal. *)
Definition isNaN (s : string) : bool :=
  let t := trim_with is_js_space (chars s) in
  negb (bool_decide (t = []) || str_decimal t || non_decimal_integer t).

(** *** [parseInt] *)

Fixpoint digits_value (radix : Z) (value : ascii -> Z) (acc : Z) (l : list ascii) : Z :=
  match l with
  | [] => acc
  | c :: l' => digits_value radix value (radix * acc + value c) l'
  end.

(** An optional sign in front of a text. *)
Definition split_sign (t : list ascii) : Z * list ascii :=
  match t with
  | c :: t' =>
      if bool_decide (c = "-"%char) then (-1, t')
      else if bool_decide (c = "+"%char) then (1, t')
      else (1, t)
  | [] => (1, t)
  end.

(** [parseInt(s)] with no radix; [None] is [NaN]. *)
Definition parseInt_string (s : string) : option Z :=
  let '(sign, t) := split_sign (drop_while is_js_space (chars s)) in
  let hex :=
    match t with
    | z :: p :: _ =>
        bool_decide (z = "0"%char)
        && (bool_decide (p = "x"%char) || bool_decide (p = "X"%char))
    | _ => false
    end in
  if hex then
    let ds := take_while is_hex_digit (drop 2 t) in
    if bool_decide (ds = []) then None
    else Some (sign * digits_value 16 (fun c => default 0 (hex_value c)) 0 ds)
  else
    let ds := take_while is_digit t in
    if bool_decide (ds = []) then None
    else Some (sign * digits_value 10 digit_value 0 ds).

Definition parseInt (v : JsValue) : JsValue :=
  match parseInt_string (ToString v) with
  | Some n => JNumber n
  | None => JNaN
  end.


(** ** The store: table [scanned_products]

    The driver sends every parameter as text ([null] and [undefined] as
    NULL) and the server reads it with the input function of the type the
    statement gives it. *)

Definition param_text (v : JsValue) : option string :=
  match v with
  | JUndefined | JNull => None
  | _ => Some (ToString v)
  end.

Definition in_int4 (n : Z) : bool := (-2147483648 <=? n) && (n <=? 2147483647).

(** Input of an [INTEGER]: white space, an optional sign, decimal digits,
    white space; out of the 32-bit range is an error. *)
Definition pg_int4_in (s : string) : option Z :=
  let '(sign, ds) := split_sign (trim_with is_c_space (chars s)) in
  if decimal_digits ds then
    let n := sign * digits_value 10 digit_value 0 ds in
    if in_int4 n then Some n else None
  else None.

(** Assignment to a [VARCHAR(50)] column: a longer string is an error,
    unless the excess is all spaces, which are cut off. *)
Definition pg_varchar50_in (s : string) : option string :=
  if bool_decide (String.length s <= 50)%nat then Some s
  else if forallb (fun c => bool_decide (c = " "%char)) (drop 50 (chars s))
  then Some (string_of_list_ascii (take 50 (chars s)))
  else None.

(** What differs between the two deployments at the store: the type of
    the [code] column. *)
Class Variant : Type := {
  Code : Type;
  Code_eq_dec :: EqDecision Code;
  code_in : string -> option Code
}.

(** [backend/server.js]: [code INTEGER NOT NULL]. *)
Definition server_js : Variant :=
  {| Code := Z; code_in := pg_int4_in |}.

(** The stricter deployment: [code VARCHAR(50) NOT NULL]. *)
Definition strict_js : Variant :=
  {| Code := string; code_in := pg_varchar50_in |}.

Section Store.
Context {V : Variant}.

(** A row of [scanned_products]. *)
Record ScanRecord : Type := {
  id : Z;
  code : Code;
  name : string;
  quantity : Z;
  session_id : string;
  created_at : Z
}.

(** A database: the rows in storage order and the next value of the
    sequence behind [id SERIAL]. *)
Record Db : Type := {
  table : list ScanRecord;
  id_seq : Z
}.

(** What [initDatabase] leaves on a fresh store: [CREATE TABLE IF NOT
    EXISTS scanned_products (...)]. *)
Definition empty_db : Db := {| table := []; id_seq := 1 |}.

Definition bind_code (v : JsValue) : option Code := param_text v ≫= code_in.
Definition bind_text (v : JsValue) : option string := param_text v.
Definition bind_int4 (v : JsValue) : option Z := param_text v ≫= pg_int4_in.

(** [WHERE id = $i AND session_id = $s] *)
Definition owned (i : Z) (sid : string) (r : ScanRecord) : bool :=
  bool_decide (id r = i) && bool_decide (session_id r = sid).

Definition in_session (sid : string) (r : ScanRecord) : bool :=
  bool_decide (session_id r = sid).

(** [INSERT INTO scanned_products (code, name, quantity, session_id)
     VALUES ($1, $2, $3, $4) RETURNING id] at time [now].  The new [id] is
    the next value of the sequence, which must fit the column. *)
Definition sql_insert (now : Z) (c n q : JsValue) (sid : string) (d : Db)
  : option (Db * Z) :=
  c' ← bind_code c;
  n' ← bind_text n;
  q' ← bind_int4 q;
  _ ← guard (in_int4 (id_seq d) = true);
  let r := {| id := id_seq d; code := c'; name := n'; quantity := q';
              session_id := sid; created_at := now |} in
  Some ({| table := table d ++ [r]; id_seq := id_seq d + 1 |}, id_seq d).

Definition overwrite (c : Code) (n : string) (q : Z) (r : ScanRecord) : ScanRecord :=
  {| id := id r; code := c; name := n; quantity := q;
     session_id := session_id r; created_at := created_at r |}.

(** [UPDATE scanned_products SET code = $1, name = $2, quantity = $3
     WHERE id = $4 AND session_id = $5]; the result is [rowCount]. *)
Definition sql_update (c n q : JsValue) (i : string) (sid : string) (d : Db)
  : option (Db * nat) :=
  c' ← bind_code c;
  n' ← bind_text n;
  q' ← bind_int4 q;
  i' ← pg_int4_in i;
  Some ({| table := map (fun r => if owned i' sid r then overwrite c' n' q' r else r)
                        (table d);
           id_seq := id_seq d |},
        length (filter (fun r => owned i' sid r = true) (table d))).

(** [DELETE FROM scanned_products WHERE id = $1 AND session_id = $2]. *)
Definition sql_delete (i : string) (sid : string) (d : Db) : option (Db * nat) :=
  i' ← pg_int4_in i;
  Some ({| table := filter (fun r => owned i' sid r = false) (table d);
           id_seq := id_seq d |},
        length (filter (fun r => owned i' sid r = true) (table d))).

(** [SELECT * FROM scanned_products WHERE session_id = $1]. *)
Definition sql_select (sid : string) (d : Db) : list ScanRecord :=
  filter (fun r => in_session sid r = true) (table d).

(** A row of the aggregate query.  ([SUM] over [INTEGER] is a [BIGINT],
    which the driver hands over as a decimal string; the model keeps its
    value.) *)
Record Total : Type := {
  t_code : Code;
  t_name : string;
  total_quantity : Z
}.

(** One step of the aggregation: add [q] to the group of [(c, n)], or
    open a new group behind the existing ones. *)
Fixpoint accumulate (c : Code) (n : string) (q : Z) (g : list Total) : list Total :=
  match g with
  | [] => [{| t_code := c; t_name := n; total_quantity := q |}]
  | t :: g' =>
      if bool_decide (t_code t = c) && bool_decide (t_name t = n)
      then {| t_code := t_code t; t_name := t_name t;
              total_quantity := total_quantity t + q |} :: g'
      else t :: accumulate c n q g'
  end.

Definition group_by_code_name (rs : list ScanRecord) : list Total :=
  fold_left (fun g r => accumulate (code r) (name r) (quantity r) g) rs [].

(** [SELECT code, name, SUM(quantity) as total_quantity
     FROM scanned_products WHERE session_id = $1 GROUP BY code, name]. *)
Definition sql_totals (sid : string) (d : Db) : list Total :=
  group_by_code_name (sql_select sid d).

(** [DELETE FROM scanned_products WHERE session_id = $1]. *)
Definition sql_purge (sid : string) (d : Db) : Db * nat :=
  ({| table := filter (fun r => in_session sid r = false) (table d);
      id_seq := id_seq d |},
   length (sql_select sid d)).

End Store.

(** ** Requests, responses and the spreadsheet *)

(** [req.body], destructured as [{ code, name, quantity }]: an absent
    field is [undefined]. *)
Record ReqBody : Type := {
  body_code : JsValue;
  body_name : JsValue;
  body_quantity : JsValue
}.

Record Request : Type := {
  authorization : option string;   (* req.headers['authorization'] *)
  params_id : string;              (* req.params.id *)
  body : ReqBody
}.

(** [req.headers['authorization'] || 'anonymous'] *)
Definition getSessionId (req : Request) : string :=
  match authorization req with
  | Some h => if bool_decide (h = "") then "anonymous" else h
  | None => "anonymous"
  end.

Inductive Exn : Type :=
| DbError                   (* the query promise rejected *)
| TypeError (message : string)
| WriterError               (* [writeBuffer] rejected *)
| ERR_HTTP_HEADERS_SENT.

Definition exn_message (e : Exn) : string :=
  match e with
  | DbError => "database error"
  | TypeError m => m
  | WriterError => "writer error"
  | ERR_HTTP_HEADERS_SENT => "Cannot set headers after they are sent to the client"
  end.

(** How the promise of an [async] function settles. *)
Inductive Outcome (A : Type) : Type :=
| Returned (a : A)
| Thrown (e : Exn).
Arguments Returned {A} a.
Arguments Thrown {A} e.

Section Service.
Context {V : Variant}.

(** [worksheet.columns] entries. *)
Record Column : Type := {
  header : string;
  key : string;
  width : Z
}.

Inductive Cell : Type :=
| CellText (s : string)
| CellCode (c : Code)
| CellNumber (n : Z)
| CellEmpty.

Record Worksheet : Type := {
  sheet_name : string;
  columns : list Column;
  data : list Total           (* the objects given to [addRows] *)
}.

(** A workbook holds its worksheets in the order they were added. *)
Definition Workbook : Type := list Worksheet.

(** The cell a row object puts in the column with key [k]. *)
Definition cell_of (t : Total) (k : string) : Cell :=
  if bool_decide (k = "code") then CellCode (t_code t)
  else if bool_decide (k = "name") then CellText (t_name t)
  else if bool_decide (k = "total_quantity") then CellNumber (total_quantity t)
  else CellEmpty.

(** The rows of a sheet as written: the header row, then one row per
    object. *)
Definition sheet_cells (ws : Worksheet) : list (list Cell) :=
  map (fun c => CellText (header c)) (columns ws)
  :: map (fun t => map (fun c => cell_of t (key c)) (columns ws)) (data ws).

Inductive Json : Type :=
| ErrorJson (error : string)
| MissingJson (error : string) (received : ReqBody) (required : list string)
| NotTextJson (error received_type example_valid_format : string)
| TooLongJson (error : string) (max_length_allowed received_length : Z)
| InternalJson (error : string) (details : option string)
| SavedJson (message : string) (new_id : Z)
| MessageJson (message : string)
| RowsJson (rows : list ScanRecord).

Inductive Payload : Type :=
| JsonBody (j : Json)
| XlsxBody (content_type content_disposition : string) (buffer : Workbook).

Record Response : Type := {
  status : Z;
  payload : Payload
}.

(** ** The world a handler runs in *)

Inductive Stmt : Type :=
| INSERT (c n q : JsValue) (sid : string)
| UPDATE (c n q : JsValue) (i sid : string)
| DELETE (i sid : string)
| SELECT (sid : string)
| SELECT_SUM (sid : string)
| DELETE_SESSION (sid : string).

Record World : Type := {
  db : Db;
  issued : list Stmt;       (* statements sent through the pool, oldest first *)
  outages : list bool;      (* for each coming statement: does the connection fail? *)
  writer_fails : bool;      (* does the next [writeBuffer] reject? *)
  now : Z;                  (* the store's clock *)
  today : string;           (* [new Date().toISOString().split('T')[0]] *)
  node_env : string;        (* [process.env.NODE_ENV] *)
  sent : option Response;   (* the response of the request being served *)
  console : list string
}.

Definition with_db (d : Db) (w : World) : World :=
  {| db := d; issued := issued w; outages := outages w;
     writer_fails := writer_fails w; now := now w; today := today w;
     node_env := node_env w; sent := sent w; console := console w |}.

Definition with_sent (r : option Response) (w : World) : World :=
  {| db := db w; issued := issued w; outages := outages w;
     writer_fails := writer_fails w; now := now w; today := today w;
     node_env := node_env w; sent := r; console := console w |}.

Definition with_console (c : list string) (w : World) : World :=
  {| db := db w; issued := issued w; outages := outages w;
     writer_fails := writer_fails w; now := now w; today := today w;
     node_env := node_env w; sent := sent w; console := c |}.

(** One statement goes out: it is recorded and the oracle moves on. *)
Definition with_issued (st : Stmt) (w : World) : World :=
  {| db := db w; issued := issued w ++ [st]; outages := tail (outages w);
     writer_fails := writer_fails w; now := now w; today := today w;
     node_env := node_env w; sent := sent w; console := console w |}.

(** *** The monad of [async] handlers: state and exceptions *)

Definition M (A : Type) : Type := World -> Outcome A * World.

#[global] Instance M_ret : MRet M := fun A a w => (Returned a, w).

#[global] Instance M_bind : MBind M := fun A B f m w =>
  match m w with
  | (Returned a, w') => f a w'
  | (Thrown e, w') => (Thrown e, w')
  end.

Definition throw {A} (e : Exn) : M A := fun w => (Thrown e, w).

(** [try { body } catch (err) { handler }] *)
Definition try_catch {A} (body : M A) (handler : Exn -> M A) : M A := fun w =>
  match body w with
  | (Returned a, w') => (Returned a, w')
  | (Thrown e, w') => handler e w'
  end.

(** [await pool.query(text, params)]: [run] is the statement's meaning. *)
Definition pool_query {A} (st : Stmt) (run : Db -> option (Db * A)) : M A := fun w =>
  let w' := with_issued st w in
  match outages w with
  | true :: _ => (Thrown DbError, w')
  | _ =>
      match run (db w) with
      | Some (d, a) => (Returned a, with_db d w')
      | None => (Thrown DbError, w')
      end
  end.

(** [res.status(s).json(j)] and [res.send(buffer)]: the first one is the
    response; a second one finds the headers sent and throws. *)
Definition res_send (r : Response) : M unit := fun w =>
  match sent w with
  | None => (Returned (), with_sent (Some r) w)
  | Some _ => (Thrown ERR_HTTP_HEADERS_SENT, w)
  end.

Definition res_status_json (s : Z) (j : Json) : M unit :=
  res_send {| status := s; payload := JsonBody j |}.

Definition res_json (j : Json) : M unit := res_status_json 200 j.

Definition console_error (label : string) : M unit := fun w =>
  (Returned (), with_console (console w ++ [label]) w).

Definition console_log (label : string) : M unit := console_error label.

Definition get_today : M string := fun w => (Returned (today w), w).
Definition get_now : M Z := fun w => (Returned (now w), w).
Definition get_node_env : M string := fun w => (Returned (node_env w), w).

(** [await workbook.xlsx.writeBuffer()] *)
Definition writeBuffer (wb : Workbook) : M Workbook := fun w =>
  if writer_fails w then (Thrown WriterError, w) else (Returned wb, w).

End Service.

Arguments pool_query : simpl never.

(** ** The handlers *)

(** [v.length]: defined on strings only. *)
Definition js_length (v : JsValue) : option Z :=
  match v with
  | JString s => Some (Z.of_nat (String.length s))
  | _ => None
  end.

Section Handlers.
Context {V : Variant}.

(** [!id] for the route parameter, a string. *)
Definition no_id (i : string) : bool := bool_decide (i = "").

(** [app.post('/save', ...)] of [backend/server.js]. *)
Definition post_save (req : Request) : M unit :=
  let code := body_code (body req) in
  let name := body_name (body req) in
  let quantity := body_quantity (body req) in
  let sessionId := getSessionId req in
  if js_not code || js_not name || js_not quantity then
    res_status_json 400 (ErrorJson "Faltan datos requeridos")
  else
    try_catch
      (t ← get_now;
       result ← pool_query (INSERT code name quantity sessionId)
                           (sql_insert t code name quantity sessionId);
       res_status_json 200 (SavedJson "Registro guardado exitosamente" result))
      (fun err =>
         _ ← console_error "Error al guardar:";
         res_status_json 500 (ErrorJson "Error interno del servidor")).

(** [app.put('/save/:id', ...)]. *)
Definition put_save (req : Request) : M unit :=
  let code := body_code (body req) in
  let name := body_name (body req) in
  let quantity := body_quantity (body req) in
  let sessionId := getSessionId req in
  let id := params_id req in
  if js_not code || js_not name || js_not quantity || no_id id then
    res_status_json 400 (ErrorJson "Faltan datos requeridos")
  else
    try_catch
      (rowCount ← pool_query (UPDATE code name quantity id sessionId)
                             (sql_update code name quantity id sessionId);
       if bool_decide (rowCount = 0%nat) then
         res_status_json 404 (ErrorJson "Registro no encontrado")
       else
         res_status_json 200 (MessageJson "Registro actualizado exitosamente"))
      (fun err =>
         _ ← console_error "Error al actualizar:";
         res_status_json 500 (ErrorJson "Error interno del servidor")).

(** [app.delete('/delete/:id', ...)]. *)
Definition delete_delete (req : Request) : M unit :=
  let sessionId := getSessionId req in
  let id := params_id req in
  if no_id id || isNaN id then
    res_status_json 400 (ErrorJson "ID inválido")
  else
    try_catch
      (rowCount ← pool_query (DELETE id sessionId) (sql_delete id sessionId);
       if bool_decide (rowCount = 0%nat) then
         res_status_json 404
           (ErrorJson "Registro no encontrado o no pertenece a esta sesión")
       else
         res_status_json 200 (MessageJson "Registro eliminado exitosamente"))
      (fun err =>
         _ ← console_error "Error al eliminar:";
         res_status_json 500 (ErrorJson "Error interno del servidor")).

(** [app.get('/records', ...)]. *)
Definition get_records (req : Request) : M unit :=
  let sessionId := getSessionId req in
  try_catch
    (rows ← pool_query (SELECT sessionId) (fun d => Some (d, sql_select sessionId d));
     res_json (RowsJson rows))
    (fun err =>
       _ ← console_error "Error al recuperar registros:";
       res_status_json 500 (ErrorJson "Error interno del servidor")).

(** [app.get('/recover', ...)]. *)
Definition get_recover (req : Request) : M unit :=
  let sessionId := getSessionId req in
  try_catch
    (rows ← pool_query (SELECT sessionId) (fun d => Some (d, sql_select sessionId d));
     res_json (RowsJson rows))
    (fun err =>
       _ ← console_error "Error al recuperar datos:";
       res_status_json 500 (ErrorJson "Error interno del servidor")).

Definition export_columns : list Column :=
  [ {| header := "Código"; key := "code"; width := 15 |};
    {| header := "Nombre"; key := "name"; width := 50 |};
    {| header := "Cantidad Total"; key := "total_quantity"; width := 15 |} ].

(** [worksheet.addRows(rows)] *)
Definition addRows (rows : list Total) (ws : Worksheet) : Worksheet :=
  {| sheet_name := sheet_name ws; columns := columns ws; data := data ws ++ rows |}.

Definition xlsx_mime : string :=
  "application/vnd.openxmlformats-officedocument.spreadsheetml.sheet".

(** [app.get('/export', ...)]. *)
Definition get_export (req : Request) : M unit :=
  let sessionId := getSessionId req in
  try_catch
    (rows ← pool_query (SELECT_SUM sessionId)
                       (fun d => Some (d, sql_totals sessionId d));
     let worksheet :=
       {| sheet_name := "Productos Escaneados"; columns := export_columns; data := [] |} in
     let worksheet := addRows rows worksheet in
     let workbook := [worksheet] in
     buffer ← writeBuffer workbook;
     date ← get_today;
     _ ← res_send {| status := 200;
                     payload := XlsxBody xlsx_mime
                       ("attachment; filename=inventario_" +:+ date +:+ ".xlsx")
                       buffer |};
     (* Limpiar la base de datos después de exportar *)
     _ ← pool_query (DELETE_SESSION sessionId) (fun d => Some (sql_purge sessionId d));
     mret ())
    (fun err =>
       _ ← console_error "Error al exportar:";
       res_status_json 500 (ErrorJson "Error al generar el reporte")).

End Handlers.

(** Assignment to a binding declared with [const]: the right-hand side is
    evaluated, then the assignment throws. *)
Definition assign_const `{V : Variant} {A} (rhs : A) : M A :=
  throw (TypeError "Assignment to constant variable.").

(** [app.post('/save', ...)] of the stricter deployment.  [code] is bound
    by [const { code, name, quantity } = req.body]. *)
Definition post_save_strict (req : Request) : M (V := strict_js) unit :=
  let code := body_code (body req) in
  let name := body_name (body req) in
  let quantity := body_quantity (body req) in
  let sessionId := getSessionId req in
  _ ← console_log "Datos recibidos:";
  (* Validación de campos requeridos *)
  if js_not code || js_not name || js_not quantity then
    res_status_json 400
      (MissingJson "Faltan datos requeridos" (body req) ["code"; "name"; "quantity"])
  else
    (* Convertir código a string si es número *)
    code ← (if bool_decide (typeof code = "number")
            then assign_const (JString (ToString code))
            else mret code);
    (* Validación adicional para el código como texto *)
    if negb (bool_decide (typeof code = "string")) then
      res_status_json 400
        (NotTextJson "El código debe ser una cadena de texto" (typeof code)
                     "ABC123 o 123456")
    (* Validación de longitud máxima *)
    else if match js_length code with Some n => 50 <? n | None => false end then
      res_status_json 400
        (TooLongJson "El código es demasiado largo" 50 (default 0 (js_length code)))
    else
      try_catch
        (t ← get_now;
         result ← pool_query (INSERT code name (parseInt quantity) sessionId)
                             (sql_insert t code name (parseInt quantity) sessionId);
         res_status_json 200 (SavedJson "Registro guardado exitosamente" result))
        (fun err =>
           _ ← console_error "Error al guardar:";
           env ← get_node_env;
           res_status_json 500
             (InternalJson "Error interno del servidor"
                (if bool_decide (env = "development") then Some (exn_message err)
                 else None))).

(** ** Serving requests *)

Inductive Endpoint : Type :=
| POST_save
| PUT_save
| DELETE_delete
| GET_records
| GET_recover
| GET_export.

(** The routes of [backend/server.js]. *)
Definition route_server (e : Endpoint) : Request -> M (V := server_js) unit :=
  match e with
  | POST_save => post_save
  | PUT_save => put_save
  | DELETE_delete => delete_delete
  | GET_records => get_records
  | GET_recover => get_recover
  | GET_export => get_export
  end.

(** The routes of the stricter deployment. *)
Definition route_strict (e : Endpoint) : Request -> M (V := strict_js) unit :=
  match e with
  | POST_save => post_save_strict
  | PUT_save => put_save
  | DELETE_delete => delete_delete
  | GET_records => get_records
  | GET_recover => get_recover
  | GET_export => get_export
  end.

(** A request meets a fresh response object; what the handler leaves
    behind is the outcome of its promise and the world after it. *)
Definition serve `{V : Variant} (h : Request -> M unit) (req : Request) (w : World)
  : Outcome unit * World :=
  h req (with_sent None w).

(** ** Vocabulary of the properties *)

Section Vocabulary.
Context {V : Variant}.

(** The [k]-th statement to come meets a working connection. *)
Definition store_up (k : nat) (w : World) : Prop := outages w !! k <> Some true.

(** What the schema and the sequence maintain: [id] is a key, every
    [id] came from the sequence and fits the column. *)
Definition wf_db (d : Db) : Prop :=
  NoDup (map id (table d))
  /\ Forall (fun r => id r < id_seq d /\ in_int4 (id r) = true) (table d).

(** The status and the JSON body of the response, when there is one. *)
Definition replied (s : Z) (j : Json) (w : World) : Prop :=
  sent w = Some {| status := s; payload := JsonBody j |}.

Definition status_sent (w : World) : option Z := status <$> sent w.

(** The statements a handler added to the log. *)
Definition new_statements (w w' : World) : list Stmt :=
  drop (length (issued w)) (issued w').




(** The tests and statements of the handlers, by name. *)
Definition put_invalid (req : Request) : bool :=
  js_not (body_code (body req)) || js_not (body_name (body req))
  || js_not (body_quantity (body req)) || no_id (params_id req).

Definition put_stmt (req : Request) : Stmt :=
  UPDATE (body_code (body req)) (body_name (body req)) (body_quantity (body req))
         (params_id req) (getSessionId req).

Definition put_run (req : Request) : Db -> option (Db * nat) :=
  sql_update (body_code (body req)) (body_name (body req)) (body_quantity (body req))
             (params_id req) (getSessionId req).

Definition delete_invalid (req : Request) : bool :=
  no_id (params_id req) || isNaN (params_id req).

Definition post_invalid (req : Request) : bool :=
  js_not (body_code (body req)) || js_not (body_name (body req))
  || js_not (body_quantity (body req)).

Definition post_stmt (req : Request) : Stmt :=
  INSERT (body_code (body req)) (body_name (body req)) (body_quantity (body req))
         (getSessionId req).

Definition post_run (t : Z) (req : Request) : Db -> option (Db * Z) :=
  sql_insert t (body_code (body req)) (body_name (body req))
             (body_quantity (body req)) (getSessionId req).

(** The spreadsheet [GET /export] builds for a session. *)
Definition export_response (date : string) (rows : list Total) : Response :=
  {| status := 200;
     payload := XlsxBody xlsx_mime
       ("attachment; filename=inventario_" +:+ date +:+ ".xlsx")
       [{| sheet_name := "Productos Escaneados"; columns := export_columns;
           data := rows |}] |}.



End Vocabulary.

(** A text that is an integer literal: an optional sign, then one or more
    decimal digits. *)
Definition is_integer_syntax (s : string) : bool :=
  decimal_digits (split_sign (chars s)).2.

(** *** Runs of [backend/server.js] *)

Definition Call : Type := Endpoint * Request.

Fixpoint run_server (calls : list Call) (w : World (V := server_js)) : World :=
  match calls with
  | [] => w
  | (e, req) :: calls' => run_server calls' (serve (route_server e) req w).2
  end.

(** The [id] a [POST /save] answered with. *)
Definition created_id `{V : Variant} (w : World) : option Z :=
  match sent w with
  | Some {| status := _; payload := JsonBody (SavedJson _ i) |} => Some i
  | _ => None
  end.

(** The ids handed out along a run, oldest first. *)
Fixpoint assigned_ids (calls : list Call) (w : World (V := server_js)) : list Z :=
  match calls with
  | [] => []
  | (e, req) :: calls' =>
      let w' := (serve (route_server e) req w).2 in
      option_list (created_id w') ++ assigned_ids calls' w'
  end.

(** The database cut down to one session. *)
Definition only `{V : Variant} (sid : string) (d : Db) : Db :=
  {| table := sql_select sid d; id_seq := id_seq d |}.

(** What a step from [w] to [w'] keeps: the invariant holds again, the
    sequence has not moved back, and an id answered by [POST /save] was
    taken from the sequence at this step. *)
Definition step_ok `{V : Variant} (w w' : World) : Prop :=
  wf_db (db w')
  /\ id_seq (db w) <= id_seq (db w')
  /\ forall i, created_id w' = Some i -> id_seq (db w) <= i < id_seq (db w').

(** The characters of a decimal numeral. *)
Definition uint_chars (d : uint) : list ascii := chars (NilEmpty.string_of_uint d).

(** *** Sample worlds *)

(** A world at rest around a database: no outage ahead, a working writer. *)
Definition quiet `{V : Variant} (d : Db) : World :=
  {| db := d; issued := []; outages := []; writer_fails := false;
     now := 1700000000; today := "2025-01-01"; node_env := "production";
     sent := None; console := [] |}.

Definition faulty `{V : Variant} (o : list bool) (wf : bool) (d : Db) : World :=
  {| db := d; issued := []; outages := o; writer_fails := wf;
     now := 1700000000; today := "2025-01-01"; node_env := "production";
     sent := None; console := [] |}.

Definition scan (i c : Z) (n : string) (q : Z) (sid : string)
  : ScanRecord (V := server_js) :=
  @Build_ScanRecord server_js i c n q sid 1700000000.

(** Two scans of the same product in session [s1], one scan in [s2]. *)
Definition sample_db : Db (V := server_js) :=
  {| table := [scan 1 7 "Widget" 3 "s1"; scan 2 7 "Widget" 4 "s1";
               scan 3 8 "Gadget" (-4) "s2"];
     id_seq := 4 |}.

Definition request (sid i : string) (c n q : JsValue) : Request :=
  {| authorization := Some sid; params_id := i;
     body := {| body_code := c; body_name := n; body_quantity := q |} |}.

Definition get (sid : string) : Request := request sid "" JUndefined JUndefined JUndefined.

(** A record is created in [s1] (it gets id 4) and deleted again. *)
Definition sample_calls : list Call :=
  [(POST_save, request "s1" "" (JNumber 9) (JString "Bolt") (JNumber 1));
   (DELETE_delete, request "s1" "4" JUndefined JUndefined JUndefined)].

(** *** Tactics *)

(** Case analysis on comparisons of character codes. *)
Ltac char_class :=
  repeat match goal with
         | H : context [(?a <=? ?b)] |- _ => destruct (Z.leb_spec a b); cbn in H
         | H : context [(?a =? ?b)] |- _ => destruct (Z.eqb_spec a b); cbn in H
         | |- context [(?a <=? ?b)] => destruct (Z.leb_spec a b); cbn
         | |- context [(?a =? ?b)] => destruct (Z.eqb_spec a b); cbn
         end; try done; try lia.

(** Unfolds the monad around a handler. *)
Ltac step_handler :=
  unfold serve, try_catch, mbind, M_bind, mret, M_ret, res_json, res_status_json,
    res_send, console_error, console_log, get_now, get_today, get_node_env,
    writeBuffer, throw; cbn.

(** ** Vocabulary of the further properties *)

Section Further.
Context {V : Variant}.

(** The connection fails for the statement to come. *)
Definition down (w : World) : bool :=
  match outages w with
  | true :: _ => true
  | _ => false
  end.

(** The world once [res.status(s).json(j)] has gone out. *)
Definition answer (s : Z) (j : Json) (w : World) : World :=
  with_sent (Some {| status := s; payload := JsonBody j |}) w.

(** The world after [console.error(label, ..)] or [console.log(label, ..)]. *)
Definition logged (label : string) (w : World) : World :=
  with_console (console w ++ [label]) w.


(** A record that was in the database [d] under the same id, session and
    creation time. *)
Definition kept (d : Db) (r' : ScanRecord) : Prop :=
  exists r, r ∈ table d /\ id r = id r' /\ session_id r = session_id r'
            /\ created_at r = created_at r'.

(** The record a [POST /save] of [req] inserts in the world [w]: it takes
    the sequence's value, the request's session and the store's clock. *)
Definition fresh (req : Request) (w : World) (r' : ScanRecord) : Prop :=
  id r' = id_seq (db w) /\ session_id r' = getSessionId req
  /\ created_at r' = now w.

End Further.

Arguments down : simpl never.

(** The test that makes an endpoint answer 400. *)
Definition invalid (e : Endpoint) (req : Request) : bool :=
  match e with
  | POST_save => post_invalid req
  | PUT_save => put_invalid req
  | DELETE_delete => delete_invalid req
  | GET_records | GET_recover | GET_export => false
  end.

(** The status codes an endpoint of [backend/server.js] answers with. *)
Definition statuses (e : Endpoint) : list Z :=
  match e with
  | POST_save => [200; 400; 500]
  | PUT_save | DELETE_delete => [200; 400; 404; 500]
  | GET_records | GET_recover | GET_export => [200; 500]
  end.

(** What an endpoint of [backend/server.js] writes to the error log. *)
Definition error_label (e : Endpoint) : string :=
  match e with
  | POST_save => "Error al guardar:"
  | PUT_save => "Error al actualizar:"
  | DELETE_delete => "Error al eliminar:"
  | GET_records => "Error al recuperar registros:"
  | GET_recover => "Error al recuperar datos:"
  | GET_export => "Error al exportar:"
  end.

(** The same request carrying the header [Authorization: anonymous]. *)
Definition as_anonymous (req : Request) : Request :=
  {| authorization := Some "anonymous"; params_id := params_id req;
     body := body req |}.

(** *** Runs of the stricter deployment *)

Fixpoint run_strict (calls : list Call) (w : World (V := strict_js)) : World :=
  match calls with
  | [] => w
  | (e, req) :: calls' => run_strict calls' (serve (route_strict e) req w).2
  end.

(** One scan in session [s1] of the stricter deployment. *)
Definition sample_strict_db : Db (V := strict_js) :=
  {| table := [@Build_ScanRecord strict_js 1 "ABC1" "Widget" 3 "s1" 1700000000];
     id_seq := 2 |}.

(** ** Numerals: a number sent as text is read back by the store and by
    [parseInt] *)

Lemma uint_chars_digits d : forallb is_digit (uint_chars d) = true.
Proof. induction d; unfold uint_chars in *; cbn; auto. Qed.

Lemma digits_value_acc d (acc : positive) :
  digits_value 10 digit_value (Z.pos acc) (uint_chars d)
  = Z.pos (Pos.of_uint_acc d acc).
Proof.
  revert acc; induction d; intros acc; unfold uint_chars in *; cbn [NilEmpty.string_of_uint chars list_ascii_of_string digits_value Pos.of_uint_acc];
    try reflexivity;
    match goal with
    | |- digits_value _ _ ?a _ = Z.pos (Pos.of_uint_acc _ ?b) =>
        replace a with (Z.pos b) by (unfold digit_value, char_code; cbn; lia)
    end; apply IHd.
Qed.

Lemma digits_value_uint d :
  digits_value 10 digit_value 0 (uint_chars d) = Z.of_N (Pos.of_uint d).
Proof.
  induction d; unfold uint_chars in *;
    cbn [NilEmpty.string_of_uint chars list_ascii_of_string digits_value Pos.of_uint];
    try reflexivity;
    try (change (10 * 0 + digit_value "0") with 0; exact IHd);
    match goal with
    | |- digits_value _ _ ?a _ = Z.of_N (N.pos (Pos.of_uint_acc _ ?b)) =>
        change a with (Z.pos b)
    end; apply digits_value_acc.
Qed.

Lemma take_while_all {A} (p : A -> bool) l :
  forallb p l = true -> take_while p l = l.
Proof.
  induction l as [|x l IH]; cbn; [done|].
  intros [Hx Hl]%andb_prop. rewrite Hx. f_equal. auto.
Qed.

Lemma drop_while_all {A} (p : A -> bool) l :
  forallb p l = true -> drop_while p l = [].
Proof.
  induction l as [|x l IH]; cbn; [done|].
  intros [Hx Hl]%andb_prop. rewrite Hx. auto.
Qed.

Lemma drop_while_head {A} (p : A -> bool) x l :
  p x = false -> drop_while p (x :: l) = x :: l.
Proof. intros Hx. cbn. by rewrite Hx. Qed.

(** Trimming leaves alone a text that neither begins nor ends with a
    character of the class. *)
Lemma trim_with_id p l x y :
  head l = Some x -> last l = Some y -> p x = false -> p y = false ->
  trim_with p l = l.
Proof.
  intros Hh Hl Hx Hy. unfold trim_with.
  destruct l as [|x' l]; [done|]. cbn in Hh. injection Hh as ->.
  rewrite drop_while_head by done.
  destruct (rev (x :: l)) as [|y' l'] eqn:Hr.
  { apply (f_equal (@length _)) in Hr. rewrite length_rev in Hr. done. }
  assert (y' = y) as ->.
  { rewrite <- (rev_involutive (x :: l)), Hr in Hl. cbn in Hl.
    rewrite last_snoc in Hl. congruence. }
  rewrite drop_while_head by done.
  by rewrite <- Hr, rev_involutive.
Qed.

Lemma is_digit_not_space c :
  is_digit c = true -> is_js_space c = false /\ is_c_space c = false.
Proof.
  unfold is_digit, is_js_space, is_c_space. generalize (char_code c) as n.
  intros n H. split; char_class.
Qed.

Lemma string_of_uint_nonnil d :
  d <> Nil -> NilZero.string_of_uint d = NilEmpty.string_of_uint d.
Proof. by destruct d. Qed.

Lemma uint_chars_nonnil d : d <> Nil -> uint_chars d <> [].
Proof. by destruct d. Qed.

(** The numeral of an integer: a minus sign when negative, then digits
    whose value is the magnitude. *)
Lemma Number_toString_chars n :
  exists ds,
    chars (Number_toString n) = (if n <? 0 then ["-"%char] else []) ++ ds
    /\ ds <> [] /\ forallb is_digit ds = true
    /\ digits_value 10 digit_value 0 ds = Z.abs n.
Proof.
  unfold Number_toString. destruct n as [|p|p]; cbn [Z.to_int Z.ltb Z.compare].
  - exists ["0"%char]. by cbn.
  - exists (uint_chars (Pos.to_uint p)).
    assert (Hnn := Unsigned.to_uint_nonnil p).
    cbn [NilZero.string_of_int]. rewrite string_of_uint_nonnil by done.
    repeat split; auto using uint_chars_nonnil, uint_chars_digits.
    by rewrite digits_value_uint, Unsigned.of_to.
  - exists (uint_chars (Pos.to_uint p)).
    assert (Hnn := Unsigned.to_uint_nonnil p).
    cbn [NilZero.string_of_int]. rewrite string_of_uint_nonnil by done.
    repeat split; auto using uint_chars_nonnil, uint_chars_digits.
    by rewrite digits_value_uint, Unsigned.of_to.
Qed.

Lemma is_digit_not_mark c :
  is_digit c = true ->
  c <> "-"%char /\ c <> "+"%char /\ c <> "."%char /\ c <> "x"%char /\ c <> "X"%char
  /\ c <> "I"%char.
Proof. intros H. repeat split; intros ->; done. Qed.

Lemma split_sign_digits ds :
  ds <> [] -> forallb is_digit ds = true -> split_sign ds = (1, ds).
Proof.
  destruct ds as [|c ds]; [done|]. intros _ [Hc _]%andb_prop.
  apply is_digit_not_mark in Hc as (? & ? & _).
  unfold split_sign. by rewrite !bool_decide_eq_false_2.
Qed.

Lemma digits_last ds :
  ds <> [] -> forallb is_digit ds = true ->
  exists y, last ds = Some y /\ is_digit y = true.
Proof.
  induction ds as [|c ds IH]; [done|]. intros _ [Hc Hds]%andb_prop.
  destruct ds as [|c' ds]; [by exists c|].
  rewrite last_cons_cons. by apply IH.
Qed.

(** A signed numeral has no white space to trim. *)
Lemma numeral_trim p (sgn ds : list ascii) :
  (forall c, is_digit c = true -> p c = false) ->
  (sgn = [] \/ (exists s, sgn = [s] /\ p s = false)) ->
  ds <> [] -> forallb is_digit ds = true ->
  trim_with p (sgn ++ ds) = sgn ++ ds.
Proof.
  intros Hp Hs Hne Hds.
  destruct (digits_last ds Hne Hds) as (y & Hy & Hyd).
  destruct ds as [|c ds]; [done|].
  assert (is_digit c = true) as Hcd.
  { cbn in Hds. by apply andb_prop in Hds as [? ?]. }
  destruct Hs as [-> | (s & -> & Hsp)].
  - by apply (trim_with_id p _ c y); [| |apply Hp|apply Hp].
  - apply (trim_with_id p _ s y); [done| |done|by apply Hp].
    change ([s] ++ c :: ds) with (s :: c :: ds). by rewrite last_cons_cons.
Qed.

Lemma sign_of_numeral n : (if n <? 0 then -1 else 1) * Z.abs n = n.
Proof. destruct (Z.ltb_spec n 0); lia. Qed.

(** The store reads the numeral of [n] back as [n], when it fits. *)
Lemma pg_int4_in_numeral n :
  pg_int4_in (Number_toString n) = if in_int4 n then Some n else None.
Proof.
  destruct (Number_toString_chars n) as (ds & Hc & Hne & Hds & Hv).
  unfold pg_int4_in. rewrite Hc.
  rewrite numeral_trim; auto.
  2:{ intros c Hcd. by apply is_digit_not_space. }
  2:{ destruct (n <? 0); [right; by exists "-"%char | by left]. }
  assert (split_sign ((if n <? 0 then ["-"%char] else []) ++ ds)
          = ((if n <? 0 then -1 else 1), ds)) as ->.
  { destruct (n <? 0); [done|]. by apply split_sign_digits. }
  unfold decimal_digits. rewrite bool_decide_eq_false_2 by done.
  unfold all_digits. rewrite Hds. cbn [negb andb].
  by rewrite Hv, sign_of_numeral.
Qed.


(** ** The monad at work: how each step moves the world *)

Section Steps.
Context {V : Variant}.

Lemma pool_query_down {A} st (run : Db -> option (Db * A)) w :
  head (outages w) = Some true ->
  pool_query st run w = (Thrown DbError, with_issued st w).
Proof.
  unfold pool_query. destruct (outages w) as [|[] ?]; cbn; congruence.
Qed.

Lemma pool_query_up {A} st (run : Db -> option (Db * A)) w :
  head (outages w) <> Some true ->
  pool_query st run w =
    match run (db w) with
    | Some (d, a) => (Returned a, with_db d (with_issued st w))
    | None => (Thrown DbError, with_issued st w)
    end.
Proof.
  unfold pool_query. destruct (outages w) as [|[] ?]; cbn; congruence.
Qed.

Lemma store_up_head w : store_up 0 w <-> head (outages w) <> Some true.
Proof. unfold store_up. by rewrite head_lookup. Qed.

Lemma store_down_head w : ~ store_up 0 w <-> head (outages w) = Some true.
Proof.
  rewrite store_up_head. destruct (head (outages w)) as [[]|]; naive_solver.
Qed.

Lemma store_up_dec k w : store_up k w \/ ~ store_up k w.
Proof. unfold store_up. destruct (outages w !! k) as [[]|]; naive_solver. Qed.

End Steps.

(** [GET /recover] against [GET /records]. *)
Lemma recover_records_same `{V : Variant} req w :
  (serve get_recover req w).1 = (serve get_records req w).1
  /\ sent (serve get_recover req w).2 = sent (serve get_records req w).2
  /\ db (serve get_recover req w).2 = db (serve get_records req w).2
  /\ issued (serve get_recover req w).2 = issued (serve get_records req w).2
  /\ outages (serve get_recover req w).2 = outages (serve get_records req w).2.
Proof.
  unfold serve, get_recover, get_records, try_catch, mbind, M_bind, pool_query.
  cbn. destruct (outages w) as [|[] ?]; cbn; done.
Qed.

(** ** The statements *)

Section Statements.
Context {V : Variant}.

Lemma sql_insert_Some t c n q sid d d' i :
  sql_insert t c n q sid d = Some (d', i) ->
  exists c' n' q',
    bind_code c = Some c' /\ bind_text n = Some n' /\ bind_int4 q = Some q'
    /\ in_int4 (id_seq d) = true /\ i = id_seq d
    /\ d' = {| table := table d ++
                 [{| id := id_seq d; code := c'; name := n'; quantity := q';
                     session_id := sid; created_at := t |}];
               id_seq := id_seq d + 1 |}.
Proof.
  unfold sql_insert. intros H.
  destruct (bind_code c) as [c'|]; [|done].
  destruct (bind_text n) as [n'|]; [|done].
  destruct (bind_int4 q) as [q'|]; [|done]. cbn in H.
  case_guard; simplify_eq/=. by exists c', n', q'.
Qed.


Lemma sql_insert_wf t c n q sid d d' i :
  wf_db d -> sql_insert t c n q sid d = Some (d', i) -> wf_db d'.
Proof.
  intros [Hnd Hall] (c' & n' & q' & _ & _ & _ & Hr & -> & ->)%sql_insert_Some.
  split; cbn.
  - rewrite map_app. cbn. apply NoDup_app. split; [done|]. split.
    + intros x Hx ->%list_elem_of_singleton.
      apply list_elem_of_fmap in Hx as (r & Hr' & Hin).
      rewrite Forall_forall in Hall. apply Hall in Hin. lia.
    + apply NoDup_singleton.
  - apply Forall_app. split.
    + eapply Forall_impl; [exact Hall|]. cbn. intros r [? ?]. split; [lia|done].
    + apply Forall_singleton. cbn. split; [lia|done].
Qed.

(** With [id] a key, at most one row answers [WHERE id = i AND
    session_id = sid]. *)
Lemma owned_split i sid (l : list ScanRecord) :
  NoDup (map id l) ->
  filter (fun r => owned i sid r = true) l <> [] ->
  exists l1 r l2,
    l = l1 ++ r :: l2 /\ id r = i /\ session_id r = sid
    /\ Forall (fun x => owned i sid x = false) (l1 ++ l2).
Proof.
  induction l as [|x l IH]; [done|]. cbn [map]. intros [Hx Hnd]%NoDup_cons Hf.
  destruct (owned i sid x) eqn:Hox.
  - exists [], x, l. unfold owned in Hox.
    apply andb_prop in Hox as [?%bool_decide_eq_true ?%bool_decide_eq_true].
    repeat split; try done. cbn. apply Forall_forall. intros y Hy.
    unfold owned. apply andb_false_iff. left. apply bool_decide_eq_false.
    intros Heq. apply Hx. apply list_elem_of_fmap. exists y. split; [congruence|done].
  - rewrite filter_cons_False in Hf by (rewrite Hox; done).
    destruct (IH Hnd Hf) as (l1 & r & l2 & -> & ? & ? & Hall).
    exists (x :: l1), r, l2. repeat split; try done. cbn. by constructor.
Qed.

Lemma map_not_owned i sid (f : ScanRecord -> ScanRecord) l :
  Forall (fun x => owned i sid x = false) l ->
  map (fun r => if owned i sid r then f r else r) l = l.
Proof.
  induction 1 as [|x l Hx _ IH]; [done|]. cbn. rewrite Hx. by f_equal.
Qed.

Lemma filter_not_owned i sid l :
  Forall (fun x => owned i sid x = false) l ->
  filter (fun r => owned i sid r = true) l = []
  /\ filter (fun r => owned i sid r = false) l = l.
Proof.
  induction 1 as [|x l Hx _ [IH1 IH2]]; [done|].
  rewrite filter_cons_False by (rewrite Hx; done).
  rewrite filter_cons_True by done. split; [done|by f_equal].
Qed.

Lemma sql_update_Some c n q i sid d d' k :
  sql_update c n q i sid d = Some (d', k) ->
  exists c' n' q' i',
    bind_code c = Some c' /\ bind_text n = Some n' /\ bind_int4 q = Some q'
    /\ pg_int4_in i = Some i'
    /\ table d' = map (fun r => if owned i' sid r then overwrite c' n' q' r else r) (table d)
    /\ id_seq d' = id_seq d
    /\ k = length (filter (fun r => owned i' sid r = true) (table d)).
Proof.
  unfold sql_update. intros H.
  destruct (bind_code c) as [c'|]; [|done].
  destruct (bind_text n) as [n'|]; [|done].
  destruct (bind_int4 q) as [q'|]; [|done].
  destruct (pg_int4_in i) as [i'|]; [|done]. cbn in H. simplify_eq.
  by exists c', n', q', i'.
Qed.

Lemma map_id_update i sid c n q (l : list ScanRecord) :
  map id (map (fun r => if owned i sid r then overwrite c n q r else r) l) = map id l.
Proof.
  rewrite map_map. apply map_ext. intros r. by destruct (owned i sid r).
Qed.

Lemma sql_update_wf c n q i sid d d' k :
  wf_db d -> sql_update c n q i sid d = Some (d', k) -> wf_db d'.
Proof.
  intros [Hnd Hall] (c' & n' & q' & i' & _ & _ & _ & _ & Ht & Hs & _)%sql_update_Some.
  split.
  - by rewrite Ht, map_id_update.
  - rewrite Ht, Hs. rewrite Forall_forall in *. intros r Hr.
    apply list_elem_of_fmap in Hr as (x & -> & Hx). apply Hall in Hx.
    by destruct (owned i' sid x).
Qed.

Lemma wf_db_filter (P : ScanRecord -> Prop) `{!forall r, Decision (P r)} d :
  wf_db d -> wf_db {| table := filter P (table d); id_seq := id_seq d |}.
Proof.
  intros [Hnd Hall]. split; cbn.
  - clear Hall. induction (table d) as [|x l IH]; [done|].
    cbn in Hnd. apply NoDup_cons in Hnd as [Hx Hnd].
    destruct (decide (P x)).
    + rewrite filter_cons_True by done. cbn. apply NoDup_cons. split; [|auto].
      intros (y & Hy & Hin)%list_elem_of_fmap. apply list_elem_of_filter in Hin.
      apply Hx. apply list_elem_of_fmap. exists y. by destruct Hin.
    + rewrite filter_cons_False by done. auto.
  - rewrite Forall_forall in Hall |- *. intros r Hr.
    apply list_elem_of_filter in Hr as [_ Hr]. by apply Hall.
Qed.

Lemma sql_delete_Some i sid d d' k :
  sql_delete i sid d = Some (d', k) ->
  exists i',
    pg_int4_in i = Some i'
    /\ d' = {| table := filter (fun r => owned i' sid r = false) (table d);
               id_seq := id_seq d |}
    /\ k = length (filter (fun r => owned i' sid r = true) (table d)).
Proof.
  unfold sql_delete. intros H.
  destruct (pg_int4_in i) as [i'|]; [|done]. cbn in H. simplify_eq. by exists i'.
Qed.

Lemma sql_delete_wf i sid d d' k :
  wf_db d -> sql_delete i sid d = Some (d', k) -> wf_db d'.
Proof. intros Hwf (i' & _ & -> & _)%sql_delete_Some. by apply wf_db_filter. Qed.

Lemma sql_purge_wf sid d : wf_db d -> wf_db (sql_purge sid d).1.
Proof. intros Hwf. by apply wf_db_filter. Qed.

Lemma db_eta (d : Db) : {| table := table d; id_seq := id_seq d |} = d.
Proof. by destruct d. Qed.

End Statements.

(** ** The handlers, case by case *)

Section Cases.
Context {V : Variant}.

Lemma put_save_invalid req w :
  put_invalid req = true ->
  let w' := (serve put_save req w).2 in
  replied 400 (ErrorJson "Faltan datos requeridos") w'
  /\ db w' = db w /\ issued w' = issued w.
Proof.
  unfold put_invalid, replied, serve, put_save. cbn beta zeta. intros ->.
  by step_handler.
Qed.

Lemma put_save_failed req w :
  put_invalid req = false ->
  ~ store_up 0 w \/ put_run req (db w) = None ->
  let w' := (serve put_save req w).2 in
  replied 500 (ErrorJson "Error interno del servidor") w'
  /\ db w' = db w /\ issued w' = issued w ++ [put_stmt req].
Proof.
  unfold put_invalid, put_run, replied, serve, put_save. cbn beta zeta.
  intros -> Hf. step_handler.
  destruct (store_up_dec 0 w) as [Hup|Hdown].
  - destruct Hf as [?|Hf]; [done|]. apply store_up_head in Hup.
    rewrite pool_query_up by done. cbn. by rewrite Hf.
  - apply store_down_head in Hdown. by rewrite pool_query_down.
Qed.

Lemma put_save_done req w d k :
  put_invalid req = false -> store_up 0 w -> put_run req (db w) = Some (d, k) ->
  let w' := (serve put_save req w).2 in
  (if bool_decide (k = 0%nat)
   then replied 404 (ErrorJson "Registro no encontrado") w'
   else replied 200 (MessageJson "Registro actualizado exitosamente") w')
  /\ db w' = d /\ issued w' = issued w ++ [put_stmt req].
Proof.
  unfold put_invalid, put_run, replied, serve, put_save. cbn beta zeta.
  intros -> Hup%store_up_head Hr.
  step_handler. rewrite pool_query_up by done. cbn. rewrite Hr.
  by destruct (bool_decide (k = 0%nat)).
Qed.

Lemma delete_delete_invalid req w :
  delete_invalid req = true ->
  let w' := (serve delete_delete req w).2 in
  replied 400 (ErrorJson "ID inválido") w'
  /\ db w' = db w /\ issued w' = issued w.
Proof.
  unfold delete_invalid, replied, serve, delete_delete. cbn beta zeta. intros ->.
  by step_handler.
Qed.

Lemma delete_delete_failed req w :
  delete_invalid req = false ->
  ~ store_up 0 w \/ sql_delete (params_id req) (getSessionId req) (db w) = None ->
  let w' := (serve delete_delete req w).2 in
  replied 500 (ErrorJson "Error interno del servidor") w'
  /\ db w' = db w
  /\ issued w' = issued w ++ [DELETE (params_id req) (getSessionId req)].
Proof.
  unfold delete_invalid, replied, serve, delete_delete. cbn beta zeta.
  intros -> Hf. step_handler.
  destruct (store_up_dec 0 w) as [Hup|Hdown].
  - destruct Hf as [?|Hf]; [done|]. apply store_up_head in Hup.
    rewrite pool_query_up by done. cbn. by rewrite Hf.
  - apply store_down_head in Hdown. by rewrite pool_query_down.
Qed.

Lemma delete_delete_done req w d k :
  delete_invalid req = false -> store_up 0 w ->
  sql_delete (params_id req) (getSessionId req) (db w) = Some (d, k) ->
  let w' := (serve delete_delete req w).2 in
  (if bool_decide (k = 0%nat)
   then replied 404 (ErrorJson "Registro no encontrado o no pertenece a esta sesión") w'
   else replied 200 (MessageJson "Registro eliminado exitosamente") w')
  /\ db w' = d
  /\ issued w' = issued w ++ [DELETE (params_id req) (getSessionId req)].
Proof.
  unfold delete_invalid, replied, serve, delete_delete. cbn beta zeta.
  intros -> Hup%store_up_head Hr.
  step_handler. rewrite pool_query_up by done. cbn. rewrite Hr.
  by destruct (bool_decide (k = 0%nat)).
Qed.

Lemma post_save_invalid req w :
  post_invalid req = true ->
  let w' := (serve post_save req w).2 in
  replied 400 (ErrorJson "Faltan datos requeridos") w'
  /\ db w' = db w /\ issued w' = issued w.
Proof.
  unfold post_invalid, replied, serve, post_save. cbn beta zeta. intros ->.
  by step_handler.
Qed.

Lemma post_save_failed req w :
  post_invalid req = false ->
  ~ store_up 0 w \/ post_run (now w) req (db w) = None ->
  let w' := (serve post_save req w).2 in
  replied 500 (ErrorJson "Error interno del servidor") w'
  /\ db w' = db w /\ issued w' = issued w ++ [post_stmt req].
Proof.
  unfold post_invalid, post_run, replied, serve, post_save. cbn beta zeta.
  intros -> Hf. step_handler.
  destruct (store_up_dec 0 w) as [Hup|Hdown].
  - destruct Hf as [?|Hf]; [done|]. apply store_up_head in Hup.
    rewrite pool_query_up by done. cbn. by rewrite Hf.
  - apply store_down_head in Hdown. by rewrite pool_query_down.
Qed.

Lemma post_save_done req w d i :
  post_invalid req = false -> store_up 0 w ->
  post_run (now w) req (db w) = Some (d, i) ->
  let w' := (serve post_save req w).2 in
  replied 200 (SavedJson "Registro guardado exitosamente" i) w'
  /\ db w' = d /\ issued w' = issued w ++ [post_stmt req].
Proof.
  unfold post_invalid, post_run, replied, serve, post_save. cbn beta zeta.
  intros -> Hup%store_up_head Hr.
  step_handler. rewrite pool_query_up by done. cbn. by rewrite Hr.
Qed.

Lemma get_records_up req w :
  store_up 0 w ->
  let w' := (serve get_records req w).2 in
  replied 200 (RowsJson (sql_select (getSessionId req) (db w))) w'
  /\ db w' = db w /\ issued w' = issued w ++ [SELECT (getSessionId req)].
Proof.
  unfold replied, serve, get_records. cbn beta zeta. intros Hup%store_up_head.
  by step_handler; rewrite pool_query_up by done.
Qed.

Lemma get_records_down req w :
  ~ store_up 0 w ->
  let w' := (serve get_records req w).2 in
  replied 500 (ErrorJson "Error interno del servidor") w'
  /\ db w' = db w /\ issued w' = issued w ++ [SELECT (getSessionId req)].
Proof.
  unfold replied, serve, get_records. cbn beta zeta. intros Hd%store_down_head.
  step_handler. by rewrite pool_query_down.
Qed.

Lemma get_export_query_down req w :
  ~ store_up 0 w ->
  serve get_export req w
  = (Returned (),
     with_sent (Some {| status := 500;
                        payload := JsonBody (ErrorJson "Error al generar el reporte") |})
       (with_console (console w ++ ["Error al exportar:"])
          (with_issued (SELECT_SUM (getSessionId req)) (with_sent None w)))).
Proof.
  unfold serve, get_export. cbn beta zeta. intros Hd%store_down_head.
  step_handler. by rewrite pool_query_down.
Qed.

Lemma get_export_writer_fails req w :
  store_up 0 w -> writer_fails w = true ->
  serve get_export req w
  = (Returned (),
     with_sent (Some {| status := 500;
                        payload := JsonBody (ErrorJson "Error al generar el reporte") |})
       (with_console (console w ++ ["Error al exportar:"])
          (with_issued (SELECT_SUM (getSessionId req)) (with_sent None w)))).
Proof.
  unfold serve, get_export. cbn beta zeta. intros Hup%store_up_head Hw.
  step_handler. rewrite pool_query_up by done. cbn. by rewrite Hw.
Qed.

Lemma store_up_next k st w : store_up k (with_issued st w) <-> store_up (S k) w.
Proof. unfold store_up. cbn. by rewrite lookup_tail. Qed.

Lemma get_export_built req w :
  store_up 0 w -> writer_fails w = false ->
  let sid := getSessionId req in
  let w' := (serve get_export req w).2 in
  sent w' = Some (export_response (today w) (sql_totals sid (db w)))
  /\ issued w' = issued w ++ [SELECT_SUM sid; DELETE_SESSION sid]
  /\ (store_up 1 w ->
      (serve get_export req w).1 = Returned () /\ db w' = (sql_purge sid (db w)).1)
  /\ (~ store_up 1 w ->
      (serve get_export req w).1 = Thrown ERR_HTTP_HEADERS_SENT /\ db w' = db w).
Proof.
  unfold serve, get_export. cbn beta zeta. intros Hup%store_up_head Hw.
  step_handler. rewrite pool_query_up by done. cbn. rewrite Hw. cbn.
  destruct (store_up_dec 1 w) as [H1|H1].
  - assert (store_up 1 w) as H1' by done.
    apply (store_up_next 0 (SELECT_SUM (getSessionId req))) in H1.
    apply store_up_head in H1. cbn in H1.
    rewrite pool_query_up by (cbn; done). cbn.
    by rewrite <- !app_assoc.
  - assert (~ store_up 1 w) as H1' by done.
    rewrite <- (store_up_next 0 (SELECT_SUM (getSessionId req))) in H1.
    apply store_down_head in H1. cbn in H1.
    rewrite pool_query_down by (cbn; done). cbn.
    by rewrite <- !app_assoc.
Qed.

End Cases.

(** ** The aggregation *)

Section Aggregation.
Context {V : Variant}.












End Aggregation.

(** ** Export and purge *)

Section ExportPurge.
Context {V : Variant}.

Lemma new_statements_app w w' l :
  issued w' = issued w ++ l -> new_statements w w' = l.
Proof. unfold new_statements. intros ->. by rewrite drop_app_length. Qed.

Lemma select_after_purge sid d : sql_select sid (sql_purge sid d).1 = [].
Proof.
  unfold sql_select, sql_purge. cbn.
  induction (table d) as [|r l IH]; [done|].
  destruct (in_session sid r) eqn:Hr.
  - by rewrite (filter_cons_False (fun r => in_session sid r = false)) by (by rewrite Hr).
  - rewrite (filter_cons_True (fun r => in_session sid r = false)) by done.
    by rewrite filter_cons_False by (by rewrite Hr).
Qed.

Lemma filter_none_in_session sid (l : list ScanRecord) :
  filter (fun r => in_session sid r = true) l = [] ->
  filter (fun r => in_session sid r = false) l = l.
Proof.
  induction l as [|r l IH]; [done|]. intros H.
  destruct (in_session sid r) eqn:Hr.
  - rewrite filter_cons_True in H by done. done.
  - rewrite filter_cons_False in H by (by rewrite Hr).
    rewrite filter_cons_True by done. f_equal. by apply IH.
Qed.

Lemma purge_nothing sid d : sql_select sid d = [] -> (sql_purge sid d).1 = d.
Proof.
  unfold sql_select, sql_purge. cbn. intros H.
  rewrite filter_none_in_session by done. apply db_eta.
Qed.


End ExportPurge.



(** Quantities 3 and 4 under one (code, name) come out as one row of 7. *)
Example export_3_and_4 :
  sent (serve get_export (get "s1") (quiet sample_db)).2
  = Some (export_response "2025-01-01"
            [@Build_Total server_js 7 "Widget" 7]).
Proof. reflexivity. Qed.

(** C2. [GET /export] sends the purge exactly when the spreadsheet was
    built and sent.  After a successful export the session is empty and
    [GET /records] for it answers with the empty sequence; when the build
    fails (aggregate query or writer) no record is deleted and the answer
    is the 500 error. *)
Theorem export_purges_iff_built `{V : Variant} (req : Request) (w : World) :
  let sid := getSessionId req in
  let w' := (serve get_export req w).2 in
  let built := store_up 0 w /\ writer_fails w = false in
  (DELETE_SESSION sid ∈ new_statements w w' <-> built)
  /\ (status_sent w' = Some 200 <-> built)
  /\ (built -> store_up 1 w ->
        (serve get_export req w).1 = Returned ()
        /\ sql_select sid (db w') = []
        /\ forall req', getSessionId req' = sid -> store_up 0 w' ->
             replied 200 (RowsJson []) (serve get_records req' w').2)
  /\ (~ built ->
        db w' = db w /\ replied 500 (ErrorJson "Error al generar el reporte") w').
Proof.
  intros sid w' built.
  assert (built \/ ~ built) as [Hb|Hnb].
  { unfold built. destruct (store_up_dec 0 w) as [?|?]; [|right; by intros [? _]].
    destruct (writer_fails w); [right; by intros [_ ?]|by left]. }
  - destruct Hb as [Hup Hw].
    destruct (get_export_built req w Hup Hw) as (Hsent & Hiss & Hok & Hko).
    fold sid w' in Hsent, Hiss, Hok, Hko.
    split; [|split; [|split]].
    + rewrite (new_statements_app _ _ _ Hiss). split; [done|]. intros _.
      apply elem_of_cons. right. by apply list_elem_of_singleton.
    + unfold status_sent. by rewrite Hsent.
    + intros _ H1. destruct (Hok H1) as [Ho Hdb]. split; [done|].
      rewrite Hdb. split; [apply select_after_purge|].
      intros req' Hreq' Hup'. destruct (get_records_up req' _ Hup') as (Hr & _).
      by rewrite Hreq', Hdb, select_after_purge in Hr.
    + intros Hn. by destruct Hn.
  - assert (serve get_export req w
            = (Returned (),
               with_sent (Some {| status := 500;
                    payload := JsonBody (ErrorJson "Error al generar el reporte") |})
                 (with_console (console w ++ ["Error al exportar:"])
                    (with_issued (SELECT_SUM sid) (with_sent None w))))) as Hfail.
    { destruct (store_up_dec 0 w) as [Hup|Hdown].
      - apply get_export_writer_fails; [done|].
        destruct (writer_fails w); [done|]. by destruct Hnb.
      - by apply get_export_query_down. }
    subst w'. rewrite Hfail. cbn.
    split; [|split; [|split]].
    + unfold new_statements. cbn. rewrite drop_app_length. split; [|done].
      intros [?|?%not_elem_of_nil]%elem_of_cons; done.
    + split; [done|]. intros ?. done.
    + intros ?. done.
    + done.
Qed.

Example export_then_records :
  table (db (serve get_export (get "s1") (quiet sample_db)).2)
  = [scan 3 8 "Gadget" (-4) "s2"]
  /\ table (db (serve get_export (get "s1") (faulty [] true sample_db)).2)
     = table sample_db
  /\ table (db (serve get_export (get "s1") (faulty [true] false sample_db)).2)
     = table sample_db.
Proof. done. Qed.

(** When the purge itself meets an outage the spreadsheet has gone out,
    the handler's promise rejects and the records stay. *)
Lemma export_purge_outage `{V : Variant} (req : Request) (w : World) :
  store_up 0 w -> writer_fails w = false -> ~ store_up 1 w ->
  (serve get_export req w).1 = Thrown ERR_HTTP_HEADERS_SENT
  /\ status_sent (serve get_export req w).2 = Some 200
  /\ db (serve get_export req w).2 = db w.
Proof.
  intros Hup Hw H1.
  destruct (get_export_built req w Hup Hw) as (Hsent & _ & _ & Hko).
  unfold status_sent. rewrite Hsent. by destruct (Hko H1).
Qed.

Lemma none_owned_in_empty_session `{V : Variant} i sid (d : Db) :
  sql_select sid d = [] ->
  filter (fun r => owned i sid r = true) (table d) = [].
Proof.
  unfold sql_select. induction (table d) as [|r l IH]; [done|]. intros H.
  destruct (in_session sid r) eqn:Hr.
  - rewrite filter_cons_True in H by done. done.
  - rewrite filter_cons_False in H by (by rewrite Hr).
    rewrite filter_cons_False; [by apply IH|].
    unfold owned, in_session in *. rewrite Hr. by rewrite andb_false_r.
Qed.

(** C10. [GET /export] for a session without records is no error: the
    answer is the 200 spreadsheet holding the header row alone, the purge
    is sent, deletes nothing and the handler completes; the same zero
    rows make [DELETE /delete/:id] and [PUT /save/:id] answer 404. *)
Theorem export_empty_session `{V : Variant} (req : Request) (w : World) :
  sql_select (getSessionId req) (db w) = [] ->
  store_up 0 w -> store_up 1 w -> writer_fails w = false ->
  let sid := getSessionId req in
  let w' := (serve get_export req w).2 in
  (serve get_export req w).1 = Returned ()
  /\ (exists disposition sheet,
        sent w' = Some {| status := 200;
                          payload := XlsxBody xlsx_mime disposition [sheet] |}
        /\ sheet_cells sheet
           = [[CellText "Código"; CellText "Nombre"; CellText "Cantidad Total"]])
  /\ DELETE_SESSION sid ∈ new_statements w w'
  /\ db w' = db w
  /\ (forall req', getSessionId req' = sid -> delete_invalid req' = false ->
        is_Some (pg_int4_in (params_id req')) ->
        replied 404 (ErrorJson "Registro no encontrado o no pertenece a esta sesión")
                (serve delete_delete req' w).2)
  /\ (forall req', getSessionId req' = sid -> put_invalid req' = false ->
        is_Some (put_run req' (db w)) ->
        replied 404 (ErrorJson "Registro no encontrado") (serve put_save req' w).2).
Proof.
  intros Hempty Hup H1 Hw sid w'.
  destruct (get_export_built req w Hup Hw) as (Hsent & Hiss & Hok & _).
  fold sid w' in Hsent, Hiss, Hok. destruct (Hok H1) as [Ho Hdb].
  split; [done|]. split; [|split; [|split; [|split]]].
  - eexists _, _. split; [exact Hsent|].
    unfold sql_totals. subst sid. by rewrite Hempty.
  - rewrite (new_statements_app _ _ _ Hiss).
    apply elem_of_cons. right. by apply list_elem_of_singleton.
  - rewrite Hdb. by apply purge_nothing.
  - intros req' Hs Hv [i Hi].
    pose proof (delete_delete_done req' w _ _ Hv Hup
                  ltac:(unfold sql_delete; rewrite Hi; reflexivity)) as (Hr & _).
    rewrite Hs in Hr. rewrite none_owned_in_empty_session in Hr by done. done.
  - intros req' Hs Hv [[d k] Hrun].
    pose proof (put_save_done req' w _ _ Hv Hup Hrun) as (Hr & _).
    apply sql_update_Some in Hrun as (c' & n' & q' & i' & _ & _ & _ & _ & _ & _ & ->).
    rewrite Hs in Hr. rewrite none_owned_in_empty_session in Hr by done. done.
Qed.

Lemma export_empty_session_witness :
  sql_select "s9" sample_db = []
  /\ store_up 0 (quiet sample_db) /\ store_up 1 (quiet sample_db)
  /\ writer_fails (quiet sample_db) = false
  /\ (serve get_export (get "s9") (quiet sample_db)).1 = Returned ()
  /\ (exists disposition sheet,
        sent (serve get_export (get "s9") (quiet sample_db)).2
        = Some {| status := 200;
                  payload := XlsxBody xlsx_mime disposition [sheet] |}
        /\ sheet_cells sheet
           = [[CellText "Código"; CellText "Nombre"; CellText "Cantidad Total"]])
  /\ DELETE_SESSION "s9"
       ∈ new_statements (quiet sample_db)
           (serve get_export (get "s9") (quiet sample_db)).2
  /\ db (serve get_export (get "s9") (quiet sample_db)).2 = sample_db.
Proof.
  split; [done|]. split; [done|]. split; [done|]. split; [done|].
  pose proof (export_empty_session (get "s9") (quiet sample_db)
                eq_refl ltac:(done) ltac:(done) eq_refl) as (H1 & H2 & H3 & H4 & _).
  done.
Defined.

(** C9. [GET /recover] behaves as [GET /records]: for every world and
    request the two settle alike, send the same response, the same
    statement and leave the same table -- the session's rows with status
    200 when the query goes through, the 500 error when it does not. *)
Theorem recover_is_records `{V : Variant} (req : Request) (w : World) :
  (serve get_recover req w).1 = (serve get_records req w).1
  /\ sent (serve get_recover req w).2 = sent (serve get_records req w).2
  /\ db (serve get_recover req w).2 = db (serve get_records req w).2
  /\ issued (serve get_recover req w).2 = issued (serve get_records req w).2
  /\ outages (serve get_recover req w).2 = outages (serve get_records req w).2
  /\ (store_up 0 w \/ ~ store_up 0 w)
  /\ (store_up 0 w ->
        replied 200 (RowsJson (sql_select (getSessionId req) (db w)))
                (serve get_recover req w).2)
  /\ (~ store_up 0 w ->
        replied 500 (ErrorJson "Error interno del servidor")
                (serve get_recover req w).2).
Proof.
  destruct (recover_records_same req w) as (Ho & Hs & Hd & Hi & Hg).
  repeat (split; [done|]). split; [apply store_up_dec|].
  unfold replied. rewrite Hs. split.
  - intros Hup. by destruct (get_records_up req w Hup).
  - intros Hdown. by destruct (get_records_down req w Hdown).
Qed.

(** ** Update and delete *)

Section Targets.
Context {V : Variant}.

Lemma key_unique (l : list ScanRecord) x y :
  NoDup (map id l) -> x ∈ l -> y ∈ l -> id x = id y -> x = y.
Proof.
  induction l as [|z l IH]; [by intros _ ?%not_elem_of_nil|]. cbn [map].
  intros [Hz Hnd]%NoDup_cons [->|Hx]%elem_of_cons [->|Hy]%elem_of_cons Heq;
    try done.
  - destruct Hz. apply list_elem_of_fmap. by exists y.
  - destruct Hz. apply list_elem_of_fmap. by exists x.
  - by apply IH.
Qed.

(** A row of another session bars its [id] to this one. *)
Lemma foreign_id_not_owned (d : Db) r sid :
  wf_db d -> r ∈ table d -> session_id r <> sid ->
  Forall (fun x => owned (id r) sid x = false) (table d).
Proof.
  intros [Hnd _] Hr Hs. apply Forall_forall. intros x Hx.
  destruct (owned (id r) sid x) eqn:Ho; [|done].
  apply andb_prop in Ho as [Hi%bool_decide_eq_true Hsx%bool_decide_eq_true].
  assert (x = r) as -> by (by apply (key_unique (table d))). done.
Qed.

Lemma db_ext (d d' : Db) : table d' = table d -> id_seq d' = id_seq d -> d' = d.
Proof. destruct d, d'. cbn. by intros -> ->. Qed.

Lemma put_save_cases req w :
  let w' := (serve put_save req w).2 in
  (db w' = db w /\ status_sent w' <> Some 200 /\ status_sent w' <> Some 404)
  \/ exists d k,
       put_invalid req = false /\ store_up 0 w /\ put_run req (db w) = Some (d, k)
       /\ db w' = d
       /\ (if bool_decide (k = 0%nat)
           then replied 404 (ErrorJson "Registro no encontrado") w'
           else replied 200 (MessageJson "Registro actualizado exitosamente") w').
Proof.
  intros w'. subst w'. unfold status_sent.
  destruct (put_invalid req) eqn:Hv.
  { left. destruct (put_save_invalid req w Hv) as (Hr & Hd & _). by rewrite Hr. }
  destruct (store_up_dec 0 w) as [Hup|Hdown].
  2:{ left. destruct (put_save_failed req w Hv (or_introl Hdown)) as (Hr & Hd & _).
      by rewrite Hr. }
  destruct (put_run req (db w)) as [[d k]|] eqn:Hrun.
  2:{ left. destruct (put_save_failed req w Hv (or_intror Hrun)) as (Hr & Hd & _).
      by rewrite Hr. }
  right. exists d, k. destruct (put_save_done req w d k Hv Hup Hrun) as (Hr & Hd & _).
  done.
Qed.

Lemma delete_delete_cases req w :
  let w' := (serve delete_delete req w).2 in
  (db w' = db w /\ status_sent w' <> Some 200 /\ status_sent w' <> Some 404)
  \/ exists d k,
       delete_invalid req = false /\ store_up 0 w
       /\ sql_delete (params_id req) (getSessionId req) (db w) = Some (d, k)
       /\ db w' = d
       /\ (if bool_decide (k = 0%nat)
           then replied 404
                  (ErrorJson "Registro no encontrado o no pertenece a esta sesión") w'
           else replied 200 (MessageJson "Registro eliminado exitosamente") w').
Proof.
  intros w'. subst w'. unfold status_sent.
  destruct (delete_invalid req) eqn:Hv.
  { left. destruct (delete_delete_invalid req w Hv) as (Hr & Hd & _). by rewrite Hr. }
  destruct (store_up_dec 0 w) as [Hup|Hdown].
  2:{ left. destruct (delete_delete_failed req w Hv (or_introl Hdown)) as (Hr & Hd & _).
      by rewrite Hr. }
  destruct (sql_delete (params_id req) (getSessionId req) (db w)) as [[d k]|] eqn:Hrun.
  2:{ left. destruct (delete_delete_failed req w Hv (or_intror Hrun)) as (Hr & Hd & _).
      by rewrite Hr. }
  right. exists d, k.
  destruct (delete_delete_done req w d k Hv Hup Hrun) as (Hr & Hd & _). done.
Qed.

End Targets.

(** C8. A successful [PUT /save/:id] overwrites [code], [name] and
    [quantity] of the one row that matches both the id and the session: that
    row keeps its [id], [session_id] and [created_at], no other row matches
    and every other row, their order and the sequence are as before. *)
Theorem update_overwrites_one_row `{V : Variant} (req : Request) (w : World) :
  wf_db (db w) ->
  status_sent (serve put_save req w).2 = Some 200 ->
  let w' := (serve put_save req w).2 in
  exists l1 r l2 r' c n q i,
    bind_code (body_code (body req)) = Some c
    /\ bind_text (body_name (body req)) = Some n
    /\ bind_int4 (body_quantity (body req)) = Some q
    /\ pg_int4_in (params_id req) = Some i
    /\ table (db w) = l1 ++ r :: l2
    /\ id r = i /\ session_id r = getSessionId req
    /\ Forall (fun x => owned i (getSessionId req) x = false) (l1 ++ l2)
    /\ table (db w') = l1 ++ r' :: l2
    /\ id r' = id r /\ session_id r' = session_id r /\ created_at r' = created_at r
    /\ code r' = c /\ name r' = n /\ quantity r' = q
    /\ id_seq (db w') = id_seq (db w).
Proof.
  intros [Hnd Hall] H200 w'.
  destruct (put_save_cases req w) as [(_ & Hn & _)|(d & k & Hv & Hup & Hrun & Hd & Hr)];
    [done|]. fold w' in Hd, Hr.
  destruct (bool_decide (k = 0%nat)) eqn:Hk.
  { unfold replied in Hr. unfold status_sent in H200. fold w' in H200.
    by rewrite Hr in H200. }
  apply bool_decide_eq_false in Hk.
  apply sql_update_Some in Hrun as (c & n & q & i & Hc & Hn & Hq & Hi & Ht & Hs & ->).
  destruct (owned_split i (getSessionId req) (table (db w)) Hnd)
    as (l1 & r & l2 & Hl & Hri & Hrs & Hrest).
  { intros Hnil. by rewrite Hnil in Hk. }
  exists l1, r, l2, (overwrite c n q r), c, n, q, i.
  rewrite Hd, Ht, Hs. repeat (split; [done|]). split; [|done].
  rewrite Hl, map_app. cbn [map]. apply Forall_app in Hrest as [H1 H2].
  rewrite !map_not_owned by done.
  unfold owned. rewrite Hri, Hrs. by rewrite !bool_decide_eq_true_2.
Qed.

Lemma update_overwrites_one_row_witness :
  wf_db (db (quiet sample_db))
  /\ status_sent
       (serve put_save (request "s1" "2" (JNumber 9) (JString "Bolt") (JNumber 12))
              (quiet sample_db)).2 = Some 200
  /\ exists l1 r l2 r' c n q i,
    bind_code (JNumber 9) = Some c
    /\ bind_text (JString "Bolt") = Some n
    /\ bind_int4 (JNumber 12) = Some q
    /\ pg_int4_in "2" = Some i
    /\ table sample_db = l1 ++ r :: l2
    /\ id r = i /\ session_id r = "s1"
    /\ Forall (fun x => owned i "s1" x = false) (l1 ++ l2)
    /\ table (db (serve put_save
                    (request "s1" "2" (JNumber 9) (JString "Bolt") (JNumber 12))
                    (quiet sample_db)).2) = l1 ++ r' :: l2
    /\ id r' = id r /\ session_id r' = session_id r /\ created_at r' = created_at r
    /\ code r' = c /\ name r' = n /\ quantity r' = q
    /\ id_seq (db (serve put_save
                     (request "s1" "2" (JNumber 9) (JString "Bolt") (JNumber 12))
                     (quiet sample_db)).2) = id_seq sample_db.
Proof.
  assert (wf_db (db (quiet sample_db))) as Hwf.
  { split; cbn.
    - repeat (apply NoDup_cons; split; [by (intros H; repeat (apply elem_of_cons in H as [H|H]; [done|]); by apply not_elem_of_nil in H)|]).
      apply NoDup_nil_2.
    - repeat (apply Forall_cons; split; [done|]). apply Forall_nil_2. }
  split; [exact Hwf|]. split; [done|].
  exact (update_overwrites_one_row
           (request "s1" "2" (JNumber 9) (JString "Bolt") (JNumber 12))
           (quiet sample_db) Hwf eq_refl).
Defined.

(** ** Integer literals and [isNaN] *)

Lemma chars_nil s : chars s = [] <-> s = "".
Proof. destruct s; cbn; split; congruence. Qed.

Lemma str_unsigned_decimal_digits ds :
  ds <> [] -> forallb is_digit ds = true -> str_unsigned_decimal ds = true.
Proof.
  intros Hne Hds. unfold str_unsigned_decimal.
  case_bool_decide; [done|].
  rewrite take_while_all, drop_while_all by done.
  by rewrite bool_decide_eq_false_2.
Qed.

Lemma decimal_digits_inv ds :
  decimal_digits ds = true -> ds <> [] /\ forallb is_digit ds = true.
Proof.
  unfold decimal_digits, all_digits. intros [Hn Hd]%andb_prop. split; [|done].
  apply negb_true_iff, bool_decide_eq_false in Hn. done.
Qed.

(** A text is its optional sign followed by the rest. *)
Lemma split_sign_inv l :
  exists sgn, l = sgn ++ (split_sign l).2
    /\ (sgn = [] \/ exists s, sgn = [s] /\ is_js_space s = false /\ is_c_space s = false)
    /\ str_decimal l = match l with
                       | [] => false
                       | _ => str_unsigned_decimal (split_sign l).2
                       end.
Proof.
  destruct l as [|c l]; [by exists []; auto|]. unfold split_sign, str_decimal.
  destruct (decide (c = "-"%char)) as [->|Hm].
  { exists ["-"%char]. split; [done|]. split; [|done]. right. by exists "-"%char. }
  rewrite (bool_decide_eq_false_2 (c = "-"%char)) by done.
  destruct (decide (c = "+"%char)) as [->|Hp].
  { exists ["+"%char]. split; [done|]. split; [|done]. right. by exists "+"%char. }
  rewrite (bool_decide_eq_false_2 (c = "+"%char)) by done.
  exists []. split; [done|]. split; [by left|done].
Qed.

(** An integer literal is never empty and never [NaN]. *)
Lemma integer_syntax_numeric s :
  is_integer_syntax s = true -> no_id s = false /\ isNaN s = false.
Proof.
  unfold is_integer_syntax. intros [Hne Hds]%decimal_digits_inv.
  destruct (split_sign_inv (chars s)) as (sgn & Hl & Hsgn & Hdec).
  set (ds := (split_sign (chars s)).2) in *. clearbody ds.
  assert (chars s <> []) as Hnil.
  { rewrite Hl. intros [_ ?]%app_eq_nil. done. }
  split.
  - unfold no_id. apply bool_decide_eq_false. by rewrite <- chars_nil.
  - unfold isNaN.
    assert (trim_with is_js_space (chars s) = chars s) as ->.
    { rewrite Hl. apply numeral_trim; try done.
      - intros c Hc. by apply is_digit_not_space.
      - destruct Hsgn as [?|(x & ? & ? & ?)]; [by left|right; by exists x]. }
    rewrite Hdec. destruct (chars s) as [|c l]; [done|].
    rewrite str_unsigned_decimal_digits by done.
    by rewrite orb_true_r.
Qed.

Lemma numeral_integer_syntax n : is_integer_syntax (Number_toString n) = true.
Proof.
  unfold is_integer_syntax.
  destruct (Number_toString_chars n) as (ds & -> & Hne & Hds & _).
  assert ((split_sign ((if n <? 0 then ["-"%char] else []) ++ ds)).2 = ds) as ->.
  { destruct (n <? 0); [done|]. by rewrite split_sign_digits. }
  unfold decimal_digits, all_digits. rewrite Hds.
  by rewrite bool_decide_eq_false_2.
Qed.

(** C7, as the handler has it.  [DELETE /delete/:id] turns down an id
    that is empty or for which [isNaN] holds: the answer is 400, no
    statement goes to the store and the table is as before.  Every integer
    literal passes the test, and a request whose statement reached the
    store carried an id that is neither empty nor [NaN]. *)
Theorem delete_rejects_non_numeric_id `{V : Variant} (req : Request) (w : World) :
  let w' := (serve delete_delete req w).2 in
  (no_id (params_id req) || isNaN (params_id req) = true ->
     replied 400 (ErrorJson "ID inválido") w'
     /\ new_statements w w' = [] /\ db w' = db w)
  /\ (is_integer_syntax (params_id req) = true ->
        no_id (params_id req) || isNaN (params_id req) = false)
  /\ (new_statements w w' <> [] ->
        no_id (params_id req) = false /\ isNaN (params_id req) = false)
  /\ (no_id (params_id req) || isNaN (params_id req) = false ->
        new_statements w w' = [DELETE (params_id req) (getSessionId req)]).
Proof.
  intros w'. subst w'.
  assert (forall l, issued (serve delete_delete req w).2 = issued w ++ l ->
                    new_statements w (serve delete_delete req w).2 = l) as Hnew.
  { intros l. apply new_statements_app. }
  split; [|split; [|split]].
  - intros Hv. destruct (delete_delete_invalid req w Hv) as (Hr & Hd & Hi).
    split; [done|]. split; [|done]. apply Hnew. by rewrite app_nil_r.
  - intros [-> ->]%integer_syntax_numeric. done.
  - intros Hn. destruct (no_id (params_id req) || isNaN (params_id req)) eqn:Hv.
    + destruct (delete_delete_invalid req w Hv) as (_ & _ & Hi).
      destruct Hn. apply Hnew. by rewrite app_nil_r.
    + by apply orb_false_elim in Hv.
  - intros Hv. apply Hnew.
    destruct (store_up_dec 0 w) as [Hup|Hdown].
    + destruct (sql_delete (params_id req) (getSessionId req) (db w))
        as [[d k]|] eqn:Hrun.
      * by destruct (delete_delete_done req w d k Hv Hup Hrun) as (_ & _ & ?).
      * by destruct (delete_delete_failed req w Hv (or_intror Hrun)) as (_ & _ & ?).
    + by destruct (delete_delete_failed req w Hv (or_introl Hdown)) as (_ & _ & ?).
Qed.

Lemma delete_rejects_non_numeric_id_witness :
  (no_id "abc" || isNaN "abc" = true
   /\ is_integer_syntax "-12" = true)
  /\ ((no_id "abc" || isNaN "abc" = true ->
       replied 400 (ErrorJson "ID inválido")
         (serve delete_delete (request "s1" "abc" JUndefined JUndefined JUndefined)
                (quiet sample_db)).2
       /\ new_statements (quiet sample_db)
            (serve delete_delete (request "s1" "abc" JUndefined JUndefined JUndefined)
                   (quiet sample_db)).2 = []
       /\ db (serve delete_delete (request "s1" "abc" JUndefined JUndefined JUndefined)
                    (quiet sample_db)).2 = sample_db)
      /\ (is_integer_syntax "-12" = true ->
          no_id "-12" || isNaN "-12" = false)).
Proof.
  split; [done|].
  pose proof (delete_rejects_non_numeric_id
                (request "s1" "abc" JUndefined JUndefined JUndefined)
                (quiet sample_db)) as (H1 & _).
  pose proof (delete_rejects_non_numeric_id
                (request "s1" "-12" JUndefined JUndefined JUndefined)
                (quiet sample_db)) as (_ & H2 & _).
  exact (conj H1 H2).
Defined.

(** C7, as stated, fails at the id ["1.5"]: it is not an integer literal,
    yet the answer is not the 400 of the validation -- the DELETE goes to
    the store, which refuses the text, and the answer is 500. *)
Lemma delete_fractional_id_reaches_store :
  is_integer_syntax "1.5" = false
  /\ no_id "1.5" || isNaN "1.5" = false
  /\ status_sent
       (serve delete_delete (request "s1" "1.5" JUndefined JUndefined JUndefined)
              (quiet sample_db)).2 = Some 500
  /\ new_statements (quiet sample_db)
       (serve delete_delete (request "s1" "1.5" JUndefined JUndefined JUndefined)
              (quiet sample_db)).2 = [DELETE "1.5" "s1"].
Proof. done. Qed.

(** ** Sessions do not see each other *)

Section Isolation.
Context {V : Variant}.

Lemma select_only sid (d : Db) : sql_select sid (only sid d) = sql_select sid d.
Proof.
  unfold only, sql_select. cbn. induction (table d) as [|r l IH]; [done|].
  destruct (in_session sid r) eqn:Hr.
  - rewrite !filter_cons_True by done. by f_equal.
  - by rewrite !filter_cons_False by (by rewrite Hr).
Qed.

Lemma select_session sid (d : Db) r : r ∈ sql_select sid d -> session_id r = sid.
Proof.
  unfold sql_select, in_session. intros [H _]%list_elem_of_filter.
  by apply bool_decide_eq_true in H.
Qed.

Lemma purge_keeps_others sid (d : Db) r :
  r ∈ table d -> session_id r <> sid -> r ∈ table (sql_purge sid d).1.
Proof.
  intros Hr Hs. cbn. apply list_elem_of_filter. split; [|done].
  unfold in_session. by apply bool_decide_eq_false.
Qed.

Lemma export_sent_only req w :
  sent (serve get_export req w).2
  = sent (serve get_export req (with_db (only (getSessionId req) (db w)) w)).2.
Proof.
  set (w2 := with_db (only (getSessionId req) (db w)) w).
  destruct (store_up_dec 0 w) as [Hup|Hdown].
  - destruct (writer_fails w) eqn:Hw.
    + rewrite (get_export_writer_fails req w Hup Hw).
      by rewrite (get_export_writer_fails req w2 Hup Hw).
    + destruct (get_export_built req w Hup Hw) as (-> & _).
      destruct (get_export_built req w2 Hup Hw) as (-> & _).
      unfold sql_totals. change (db w2) with (only (getSessionId req) (db w)).
      by rewrite select_only.
  - rewrite (get_export_query_down req w Hdown).
    by rewrite (get_export_query_down req w2 Hdown).
Qed.

Lemma export_keeps_others req w r :
  r ∈ table (db w) -> session_id r <> getSessionId req ->
  r ∈ table (db (serve get_export req w).2).
Proof.
  intros Hr Hs.
  destruct (store_up_dec 0 w) as [Hup|Hdown].
  - destruct (writer_fails w) eqn:Hw.
    + by rewrite (get_export_writer_fails req w Hup Hw).
    + destruct (get_export_built req w Hup Hw) as (_ & _ & Hok & Hko).
      destruct (store_up_dec 1 w) as [H1|H1].
      * destruct (Hok H1) as [_ ->]. by apply purge_keeps_others.
      * by destruct (Hko H1) as [_ ->].
  - by rewrite (get_export_query_down req w Hdown).
Qed.

Lemma records_not_foreign req w r rows :
  session_id r <> getSessionId req ->
  replied 200 (RowsJson rows) (serve get_records req w).2 -> r ∉ rows.
Proof.
  intros Hs Hr Hin. unfold replied in Hr.
  destruct (store_up_dec 0 w) as [Hup|Hdown].
  - destruct (get_records_up req w Hup) as (Hr' & _). unfold replied in Hr'.
    rewrite Hr' in Hr. simplify_eq. by apply select_session in Hin.
  - destruct (get_records_down req w Hdown) as (Hr' & _). unfold replied in Hr'.
    rewrite Hr' in Hr. simplify_eq.
Qed.

Lemma numeral_of_id (d : Db) r :
  wf_db d -> r ∈ table d -> pg_int4_in (Number_toString (id r)) = Some (id r).
Proof.
  intros [_ Hall] Hr. rewrite Forall_forall in Hall.
  destruct (Hall _ Hr) as [_ Hi]. by rewrite pg_int4_in_numeral, Hi.
Qed.

(** An update aimed at a row of another session finds nothing. *)
Lemma put_save_foreign req w r :
  wf_db (db w) -> r ∈ table (db w) -> session_id r <> getSessionId req ->
  pg_int4_in (params_id req) = Some (id r) ->
  let w' := (serve put_save req w).2 in
  db w' = db w
  /\ status_sent w' <> Some 200
  /\ (put_invalid req = false -> store_up 0 w -> is_Some (put_run req (db w)) ->
      replied 404 (ErrorJson "Registro no encontrado") w').
Proof.
  intros Hwf Hr Hs Hi w'.
  pose proof (foreign_id_not_owned _ _ _ Hwf Hr Hs) as Hno.
  assert (forall d k, put_run req (db w) = Some (d, k) -> d = db w /\ k = 0%nat) as Hrun.
  { intros d k (c & n & q & i & _ & _ & _ & Hi' & Ht & Hq & ->)%sql_update_Some.
    rewrite Hi in Hi'. simplify_eq.
    rewrite map_not_owned in Ht by done.
    rewrite (proj1 (filter_not_owned _ _ _ Hno)). split; [by apply db_ext|done]. }
  subst w'.
  destruct (put_save_cases req w) as [(Hd & H2 & _)|(d & k & Hv & Hup & Hr' & Hd & Hrep)].
  - split; [done|]. split; [done|]. intros Hv Hup [[d k] Hr'].
    destruct (Hrun _ _ Hr') as [-> ->].
    by destruct (put_save_done req w _ _ Hv Hup Hr') as (? & _).
  - destruct (Hrun _ _ Hr') as [-> ->]. cbn in Hrep.
    split; [done|]. unfold status_sent. unfold replied in Hrep. rewrite Hrep.
    split; [done|]. by intros _ _ _.
Qed.

(** A delete aimed at a row of another session finds nothing. *)
Lemma delete_delete_foreign req w r :
  wf_db (db w) -> r ∈ table (db w) -> session_id r <> getSessionId req ->
  pg_int4_in (params_id req) = Some (id r) ->
  let w' := (serve delete_delete req w).2 in
  db w' = db w
  /\ status_sent w' <> Some 200
  /\ (delete_invalid req = false -> store_up 0 w ->
      replied 404 (ErrorJson "Registro no encontrado o no pertenece a esta sesión") w').
Proof.
  intros Hwf Hr Hs Hi w'.
  pose proof (foreign_id_not_owned _ _ _ Hwf Hr Hs) as Hno.
  assert (sql_delete (params_id req) (getSessionId req) (db w) = Some (db w, 0%nat))
    as Hrun.
  { unfold sql_delete. rewrite Hi. cbn.
    destruct (filter_not_owned _ _ _ Hno) as [-> ->]. by rewrite db_eta. }
  subst w'.
  destruct (delete_delete_cases req w)
    as [(Hd & H2 & _)|(d & k & Hv & Hup & Hr' & Hd & Hrep)].
  - split; [done|]. split; [done|]. intros Hv Hup.
    by destruct (delete_delete_done req w _ _ Hv Hup Hrun) as (? & _).
  - rewrite Hrun in Hr'. simplify_eq. cbn in Hrep.
    split; [done|]. unfold status_sent. unfold replied in Hrep. rewrite Hrep.
    split; [done|]. by intros _ _.
Qed.

End Isolation.

Lemma param_text_truthy v : js_not v = false -> is_Some (param_text v).
Proof. destruct v; cbn; try done; by eexists. Qed.

Lemma numeral_not_empty n : no_id (Number_toString n) = false.
Proof. by destruct (integer_syntax_numeric _ (numeral_integer_syntax n)). Qed.

Lemma sample_db_wf : wf_db sample_db.
Proof.
  split; cbn.
  - repeat (apply NoDup_cons; split;
            [intros H; repeat (apply elem_of_cons in H as [H|H]; [done|]);
             by apply not_elem_of_nil in H|]).
    apply NoDup_nil_2.
  - repeat (apply Forall_cons; split; [done|]). apply Forall_nil_2.
Qed.

(** C3. A record [r] of another session than the request's is out of
    reach: [GET /records] never lists it; the sheet of [GET /export] is
    the one of the database cut down to the request's session, and [r]
    survives the purge; [PUT /save/:id] and [DELETE /delete/:id] called
    with the id of [r] leave the whole database as it was, never answer
    200, and answer 404 whenever the request is otherwise in order. *)
Theorem cross_session_isolation `{V : Variant}
    (w : World) (r : ScanRecord) (req : Request) :
  wf_db (db w) -> r ∈ table (db w) -> session_id r <> getSessionId req ->
  (forall rows, replied 200 (RowsJson rows) (serve get_records req w).2 -> r ∉ rows)
  /\ sent (serve get_export req w).2
     = sent (serve get_export req (with_db (only (getSessionId req) (db w)) w)).2
  /\ r ∈ table (db (serve get_export req w).2)
  /\ (params_id req = Number_toString (id r) ->
      (db (serve put_save req w).2 = db w
       /\ status_sent (serve put_save req w).2 <> Some 200
       /\ (post_invalid req = false -> store_up 0 w ->
           is_Some (bind_code (body_code (body req))) ->
           is_Some (bind_int4 (body_quantity (body req))) ->
           replied 404 (ErrorJson "Registro no encontrado") (serve put_save req w).2))
      /\ (db (serve delete_delete req w).2 = db w
          /\ status_sent (serve delete_delete req w).2 <> Some 200
          /\ (store_up 0 w ->
              replied 404
                (ErrorJson "Registro no encontrado o no pertenece a esta sesión")
                (serve delete_delete req w).2))).
Proof.
  intros Hwf Hr Hs.
  split; [intros rows; by apply records_not_foreign|].
  split; [apply export_sent_only|].
  split; [by apply export_keeps_others|].
  intros Hid.
  assert (pg_int4_in (params_id req) = Some (id r)) as Hi.
  { rewrite Hid. by apply (numeral_of_id (db w)). }
  split.
  - destruct (put_save_foreign req w r Hwf Hr Hs Hi) as (Hd & Hn & H404).
    split; [done|]. split; [done|].
    intros Hv Hup [c Hc] [q Hq]. unfold post_invalid in Hv.
    apply orb_false_elim in Hv as [[Hvc Hvn]%orb_false_elim Hvq].
    destruct (param_text_truthy _ Hvn) as [n Hn'].
    apply H404; [|done|].
    + unfold put_invalid. rewrite Hvc, Hvn, Hvq, Hid. cbn.
      apply numeral_not_empty.
    + unfold put_run, sql_update. unfold bind_text. rewrite Hc, Hn', Hq, Hi. by eexists.
  - destruct (delete_delete_foreign req w r Hwf Hr Hs Hi) as (Hd & Hn & H404).
    split; [done|]. split; [done|]. intros Hup. apply H404; [|done].
    unfold delete_invalid. rewrite Hid.
    destruct (integer_syntax_numeric _ (numeral_integer_syntax (id r))) as [-> ->].
    done.
Qed.

Lemma cross_session_isolation_witness :
  (wf_db (db (quiet sample_db))
   /\ scan 3 8 "Gadget" (-4) "s2" ∈ table (db (quiet sample_db))
   /\ session_id (scan 3 8 "Gadget" (-4) "s2")
      <> getSessionId (request "s1" "3" (JNumber 1) (JString "x") (JNumber 1)))
  /\ (forall rows,
        replied 200 (RowsJson rows)
          (serve get_records (request "s1" "3" (JNumber 1) (JString "x") (JNumber 1))
                 (quiet sample_db)).2 ->
        scan 3 8 "Gadget" (-4) "s2" ∉ rows)
  /\ scan 3 8 "Gadget" (-4) "s2"
       ∈ table (db (serve get_export
                      (request "s1" "3" (JNumber 1) (JString "x") (JNumber 1))
                      (quiet sample_db)).2)
  /\ db (serve put_save (request "s1" "3" (JNumber 1) (JString "x") (JNumber 1))
               (quiet sample_db)).2 = sample_db
  /\ replied 404 (ErrorJson "Registro no encontrado")
       (serve put_save (request "s1" "3" (JNumber 1) (JString "x") (JNumber 1))
              (quiet sample_db)).2
  /\ db (serve delete_delete (request "s1" "3" (JNumber 1) (JString "x") (JNumber 1))
               (quiet sample_db)).2 = sample_db
  /\ replied 404 (ErrorJson "Registro no encontrado o no pertenece a esta sesión")
       (serve delete_delete (request "s1" "3" (JNumber 1) (JString "x") (JNumber 1))
              (quiet sample_db)).2.
Proof.
  assert (scan 3 8 "Gadget" (-4) "s2" ∈ table (db (quiet sample_db))) as Hin.
  { cbn. do 2 (apply elem_of_cons; right). apply elem_of_cons. by left. }
  assert (session_id (scan 3 8 "Gadget" (-4) "s2")
          <> getSessionId (request "s1" "3" (JNumber 1) (JString "x") (JNumber 1)))
    as Hne by done.
  split; [by split; [apply sample_db_wf|]|].
  destruct (cross_session_isolation (quiet sample_db) (scan 3 8 "Gadget" (-4) "s2")
              (request "s1" "3" (JNumber 1) (JString "x") (JNumber 1))
              sample_db_wf Hin Hne) as (H1 & _ & H3 & H4).
  destruct (H4 eq_refl) as ((H5 & _ & H6) & (H7 & _ & H8)).
  split; [exact H1|]. split; [exact H3|]. split; [exact H5|].
  split; [apply H6; by try eexists|]. split; [exact H7|]. by apply H8.
Defined.

(** ** Runs: the sequence only moves forward *)

Section Runs.
Context {V : Variant}.

Lemma step_ok_same w w' :
  wf_db (db w) -> db w' = db w -> created_id w' = None -> step_ok w w'.
Proof. intros Hwf Hd Hc. unfold step_ok. rewrite Hd, Hc. split; [done|]. split; [lia|done]. Qed.

Lemma created_id_replied s j w :
  replied s j w -> created_id w = match j with SavedJson _ i => Some i | _ => None end.
Proof. unfold replied, created_id. by intros ->. Qed.

Lemma post_save_step req w : wf_db (db w) -> step_ok w (serve post_save req w).2.
Proof.
  intros Hwf. destruct (post_invalid req) eqn:Hv.
  { destruct (post_save_invalid req w Hv) as (Hr & Hd & _).
    apply step_ok_same; [done..|]. by rewrite (created_id_replied _ _ _ Hr). }
  destruct (store_up_dec 0 w) as [Hup|Hdown].
  2:{ destruct (post_save_failed req w Hv (or_introl Hdown)) as (Hr & Hd & _).
      apply step_ok_same; [done..|]. by rewrite (created_id_replied _ _ _ Hr). }
  destruct (post_run (now w) req (db w)) as [[d i]|] eqn:Hrun.
  2:{ destruct (post_save_failed req w Hv (or_intror Hrun)) as (Hr & Hd & _).
      apply step_ok_same; [done..|]. by rewrite (created_id_replied _ _ _ Hr). }
  destruct (post_save_done req w d i Hv Hup Hrun) as (Hr & Hd & _).
  unfold step_ok. rewrite Hd, (created_id_replied _ _ _ Hr).
  pose proof (sql_insert_wf _ _ _ _ _ _ _ _ Hwf Hrun) as Hwf'.
  apply sql_insert_Some in Hrun as (c' & n' & q' & _ & _ & _ & _ & -> & ->).
  split; [done|]. cbn. split; [lia|]. intros ? [= <-]. lia.
Qed.

Lemma put_save_step req w : wf_db (db w) -> step_ok w (serve put_save req w).2.
Proof.
  intros Hwf. destruct (put_invalid req) eqn:Hv.
  { destruct (put_save_invalid req w Hv) as (Hr & Hd & _).
    apply step_ok_same; [done..|]. by rewrite (created_id_replied _ _ _ Hr). }
  destruct (store_up_dec 0 w) as [Hup|Hdown].
  2:{ destruct (put_save_failed req w Hv (or_introl Hdown)) as (Hr & Hd & _).
      apply step_ok_same; [done..|]. by rewrite (created_id_replied _ _ _ Hr). }
  destruct (put_run req (db w)) as [[d k]|] eqn:Hrun.
  2:{ destruct (put_save_failed req w Hv (or_intror Hrun)) as (Hr & Hd & _).
      apply step_ok_same; [done..|]. by rewrite (created_id_replied _ _ _ Hr). }
  destruct (put_save_done req w d k Hv Hup Hrun) as (Hr & Hd & _).
  assert (created_id (serve put_save req w).2 = None) as Hc.
  { destruct (bool_decide (k = 0%nat)); by rewrite (created_id_replied _ _ _ Hr). }
  unfold step_ok. rewrite Hc, Hd. split; [by eapply sql_update_wf|].
  apply sql_update_Some in Hrun as (? & ? & ? & ? & _ & _ & _ & _ & _ & -> & _).
  split; [lia|done].
Qed.

Lemma delete_delete_step req w :
  wf_db (db w) -> step_ok w (serve delete_delete req w).2.
Proof.
  intros Hwf. destruct (delete_invalid req) eqn:Hv.
  { destruct (delete_delete_invalid req w Hv) as (Hr & Hd & _).
    apply step_ok_same; [done..|]. by rewrite (created_id_replied _ _ _ Hr). }
  destruct (store_up_dec 0 w) as [Hup|Hdown].
  2:{ destruct (delete_delete_failed req w Hv (or_introl Hdown)) as (Hr & Hd & _).
      apply step_ok_same; [done..|]. by rewrite (created_id_replied _ _ _ Hr). }
  destruct (sql_delete (params_id req) (getSessionId req) (db w))
    as [[d k]|] eqn:Hrun.
  2:{ destruct (delete_delete_failed req w Hv (or_intror Hrun)) as (Hr & Hd & _).
      apply step_ok_same; [done..|]. by rewrite (created_id_replied _ _ _ Hr). }
  destruct (delete_delete_done req w d k Hv Hup Hrun) as (Hr & Hd & _).
  assert (created_id (serve delete_delete req w).2 = None) as Hc.
  { destruct (bool_decide (k = 0%nat)); by rewrite (created_id_replied _ _ _ Hr). }
  unfold step_ok. rewrite Hc, Hd. split; [by eapply sql_delete_wf|].
  apply sql_delete_Some in Hrun as (? & _ & -> & _). cbn. split; [lia|done].
Qed.

Lemma get_records_step req w : wf_db (db w) -> step_ok w (serve get_records req w).2.
Proof.
  intros Hwf. destruct (store_up_dec 0 w) as [Hup|Hdown].
  - destruct (get_records_up req w Hup) as (Hr & Hd & _).
    apply step_ok_same; [done..|]. by rewrite (created_id_replied _ _ _ Hr).
  - destruct (get_records_down req w Hdown) as (Hr & Hd & _).
    apply step_ok_same; [done..|]. by rewrite (created_id_replied _ _ _ Hr).
Qed.

Lemma get_recover_step req w : wf_db (db w) -> step_ok w (serve get_recover req w).2.
Proof.
  intros Hwf. destruct (recover_records_same req w) as (_ & Hs & Hd & _).
  destruct (get_records_step req w Hwf) as (H1 & H2 & H3).
  unfold step_ok, created_id. rewrite Hs, Hd. done.
Qed.

Lemma get_export_step req w : wf_db (db w) -> step_ok w (serve get_export req w).2.
Proof.
  intros Hwf. destruct (store_up_dec 0 w) as [Hup|Hdown].
  - destruct (writer_fails w) eqn:Hw.
    + rewrite (get_export_writer_fails req w Hup Hw). by apply step_ok_same.
    + destruct (get_export_built req w Hup Hw) as (Hs & _ & Hok & Hko).
      assert (created_id (serve get_export req w).2 = None) as Hc.
      { unfold created_id. by rewrite Hs. }
      destruct (store_up_dec 1 w) as [H1|H1].
      * destruct (Hok H1) as [_ Hd]. unfold step_ok. rewrite Hc, Hd.
        split; [by apply sql_purge_wf|]. cbn. split; [lia|done].
      * destruct (Hko H1) as [_ Hd]. by apply step_ok_same.
  - rewrite (get_export_query_down req w Hdown). by apply step_ok_same.
Qed.

End Runs.

Lemma route_server_step e req w :
  wf_db (db w) -> step_ok w (serve (route_server e) req w).2.
Proof.
  destruct e; cbn [route_server];
    auto using post_save_step, put_save_step, delete_delete_step, get_records_step,
      get_recover_step, get_export_step.
Qed.

(** Along a run the invariant holds and every id handed out lies below
    the sequence, so the sequence's next value is new. *)
Lemma run_server_ok calls w :
  wf_db (db w) ->
  wf_db (db (run_server calls w))
  /\ id_seq (db w) <= id_seq (db (run_server calls w))
  /\ Forall (fun i => i < id_seq (db (run_server calls w))) (assigned_ids calls w).
Proof.
  revert w. induction calls as [|[e req] calls IH]; intros w Hwf; cbn.
  { split; [done|]. split; [lia|constructor]. }
  destruct (route_server_step e req w Hwf) as (Hwf' & Hle & Hnew).
  destruct (IH _ Hwf') as (Hwf'' & Hle' & Hall).
  split; [done|]. split; [lia|].
  apply Forall_app. split; [|done].
  destruct (created_id _) as [i|] eqn:Hc; cbn; [|constructor].
  apply Forall_singleton. specialize (Hnew i eq_refl). lia.
Qed.

Lemma empty_db_wf `{V : Variant} : wf_db empty_db.
Proof. split; constructor. Qed.

(** Every database [backend/server.js] reaches from the empty table is
    well formed. *)
Lemma run_from_empty_wf calls (w : World (V := server_js)) :
  db w = empty_db -> wf_db (db (run_server calls w)).
Proof.
  intros Hw. apply run_server_ok. rewrite Hw. apply empty_db_wf.
Qed.

(** ** Create *)





Example sample_run :
  assigned_ids sample_calls (quiet sample_db) = [4]
  /\ map id (table (db (run_server sample_calls (quiet sample_db)))) = [1; 2; 3]
  /\ created_id
       (serve post_save (request "s1" "" (JNumber 55) (JString "Nut") (JNumber (-2)))
              (run_server sample_calls (quiet sample_db))).2 = Some 5.
Proof. done. Qed.


(** ** Create in the stricter deployment *)

Lemma post_save_strict_invalid req (w : World (V := strict_js)) :
  post_invalid req = true ->
  let w' := (serve post_save_strict req w).2 in
  replied 400 (MissingJson "Faltan datos requeridos" (body req)
                 ["code"; "name"; "quantity"]) w'
  /\ db w' = db w /\ issued w' = issued w.
Proof.
  unfold post_invalid, replied, serve, post_save_strict. cbn beta zeta.
  step_handler. by intros ->.
Qed.

(** A numeric [code] gets as far as the assignment to the [const]
    binding, which throws outside the [try]: the promise rejects, nothing
    is answered, nothing is stored. *)
Lemma post_save_strict_number req (w : World (V := strict_js)) k :
  body_code (body req) = JNumber k -> post_invalid req = false ->
  let w' := (serve post_save_strict req w).2 in
  (serve post_save_strict req w).1
  = Thrown (TypeError "Assignment to constant variable.")
  /\ sent w' = None /\ db w' = db w /\ issued w' = issued w.
Proof.
  unfold post_invalid, serve, post_save_strict. cbn beta zeta.
  step_handler. intros -> ->. by cbn.
Qed.

Lemma post_save_strict_too_long req (w : World (V := strict_js)) s :
  body_code (body req) = JString s -> post_invalid req = false ->
  (50 < String.length s)%nat ->
  let w' := (serve post_save_strict req w).2 in
  replied 400 (TooLongJson "El código es demasiado largo" 50
                 (Z.of_nat (String.length s))) w'
  /\ db w' = db w /\ issued w' = issued w.
Proof.
  unfold post_invalid, replied, serve, post_save_strict. cbn beta zeta.
  step_handler. intros -> -> Hlen. cbn [typeof].
  change (bool_decide ("string" = "number")) with false. cbn.
  change (bool_decide ("string" = "string")) with true. cbn.
  by rewrite (proj2 (Z.ltb_lt 50 (Z.of_nat (String.length s)))) by lia.
Qed.


(** C5, at a numeric code.  In the stricter deployment [POST /save] with
    [{code: 12345, name: "Widget", quantity: 5}] does not store the
    numeral of the code: the assignment [code = code.toString()] to the
    [const] binding throws, the promise rejects, no response is sent, no
    statement reaches the store and the table is as before. *)
Theorem strict_create_numeric_code_throws (w : World (V := strict_js)) :
  (serve post_save_strict
         (request "s1" "" (JNumber 12345) (JString "Widget") (JNumber 5)) w).1
  = Thrown (TypeError "Assignment to constant variable.")
  /\ sent (serve post_save_strict
                 (request "s1" "" (JNumber 12345) (JString "Widget") (JNumber 5)) w).2
     = None
  /\ db (serve post_save_strict
               (request "s1" "" (JNumber 12345) (JString "Widget") (JNumber 5)) w).2
     = db w
  /\ issued (serve post_save_strict
                   (request "s1" "" (JNumber 12345) (JString "Widget") (JNumber 5)) w).2
     = issued w.
Proof. by apply (post_save_strict_number _ w 12345). Qed.

(** ** Quantities *)





(** The second half of C5: a code of more than 50 characters is turned
    down with 400 and nothing is inserted. *)
Example strict_create_long_code :
  status_sent
    (serve post_save_strict
           (request "s1" ""
              (JString "012345678901234567890123456789012345678901234567890")
              (JString "Widget") (JNumber 5))
           (quiet empty_db)).2 = Some 400
  /\ db (serve post_save_strict
               (request "s1" ""
                  (JString "012345678901234567890123456789012345678901234567890")
                  (JString "Widget") (JNumber 5))
               (quiet empty_db)).2 = empty_db.
Proof. done. Qed.

(** * Further properties of the handlers *)

(** ** Each handler as one equation *)

Arguments sql_insert : simpl never.
Arguments sql_update : simpl never.
Arguments sql_delete : simpl never.
Arguments sql_select : simpl never.
Arguments sql_totals : simpl never.
Arguments sql_purge : simpl never.

Section Equations.
Context {V : Variant}.

Lemma down_store_up w : down w = false <-> store_up 0 w.
Proof.
  rewrite store_up_head. unfold down.
  destruct (outages w) as [|[] ?]; cbn; split; congruence.
Qed.

Lemma pool_query_eq {A} st (run : Db -> option (Db * A)) w :
  pool_query st run w =
    if down w then (Thrown DbError, with_issued st w)
    else match run (db w) with
         | Some (d, a) => (Returned a, with_db d (with_issued st w))
         | None => (Thrown DbError, with_issued st w)
         end.
Proof. unfold pool_query, down. by destruct (outages w) as [|[] ?]. Qed.

Lemma down_with_sent r w : down (with_sent r w) = down w.
Proof. done. Qed.

Lemma put_save_eq req w :
  serve put_save req w =
    if put_invalid req
    then (Returned (), answer 400 (ErrorJson "Faltan datos requeridos") (with_sent None w))
    else
      let w1 := with_issued (put_stmt req) (with_sent None w) in
      let failed := (Returned (),
                     answer 500 (ErrorJson "Error interno del servidor")
                            (logged "Error al actualizar:" w1)) in
      if down w then failed
      else match put_run req (db w) with
           | None => failed
           | Some (d, k) =>
               (Returned (),
                answer (if bool_decide (k = 0%nat) then 404 else 200)
                  (if bool_decide (k = 0%nat)
                   then ErrorJson "Registro no encontrado"
                   else MessageJson "Registro actualizado exitosamente")
                  (with_db d w1))
           end.
Proof.
  unfold serve, put_save, put_invalid, put_run, put_stmt. cbn beta zeta.
  destruct (_ || _ || _ || _); [done|].
  step_handler. rewrite pool_query_eq, down_with_sent. cbn [db with_sent].
  destruct (down w); [done|].
  destruct (sql_update _ _ _ _ _ _) as [[d k]|]; [|done]. cbn.
  by destruct (bool_decide (k = 0%nat)).
Qed.

Lemma post_save_eq req w :
  serve post_save req w =
    if post_invalid req
    then (Returned (), answer 400 (ErrorJson "Faltan datos requeridos") (with_sent None w))
    else
      let w1 := with_issued (post_stmt req) (with_sent None w) in
      let failed := (Returned (),
                     answer 500 (ErrorJson "Error interno del servidor")
                            (logged "Error al guardar:" w1)) in
      if down w then failed
      else match post_run (now w) req (db w) with
           | None => failed
           | Some (d, i) =>
               (Returned (),
                answer 200 (SavedJson "Registro guardado exitosamente" i) (with_db d w1))
           end.
Proof.
  unfold serve, post_save, post_invalid, post_run, post_stmt. cbn beta zeta.
  destruct (_ || _ || _); [done|].
  step_handler. rewrite pool_query_eq, down_with_sent. cbn [db with_sent].
  destruct (down w); [done|].
  by destruct (sql_insert _ _ _ _ _ _) as [[d i]|].
Qed.

Lemma delete_delete_eq req w :
  serve delete_delete req w =
    if delete_invalid req
    then (Returned (), answer 400 (ErrorJson "ID inválido") (with_sent None w))
    else
      let w1 := with_issued (DELETE (params_id req) (getSessionId req))
                            (with_sent None w) in
      let failed := (Returned (),
                     answer 500 (ErrorJson "Error interno del servidor")
                            (logged "Error al eliminar:" w1)) in
      if down w then failed
      else match sql_delete (params_id req) (getSessionId req) (db w) with
           | None => failed
           | Some (d, k) =>
               (Returned (),
                answer (if bool_decide (k = 0%nat) then 404 else 200)
                  (if bool_decide (k = 0%nat)
                   then ErrorJson "Registro no encontrado o no pertenece a esta sesión"
                   else MessageJson "Registro eliminado exitosamente")
                  (with_db d w1))
           end.
Proof.
  unfold serve, delete_delete, delete_invalid. cbn beta zeta.
  destruct (_ || _); [done|].
  step_handler. rewrite pool_query_eq, down_with_sent. cbn [db with_sent].
  destruct (down w); [done|].
  destruct (sql_delete _ _ _) as [[d k]|]; [|done]. cbn.
  by destruct (bool_decide (k = 0%nat)).
Qed.

Lemma get_records_eq req w :
  serve get_records req w =
    let w1 := with_issued (SELECT (getSessionId req)) (with_sent None w) in
    if down w
    then (Returned (),
          answer 500 (ErrorJson "Error interno del servidor")
                 (logged "Error al recuperar registros:" w1))
    else (Returned (),
          answer 200 (RowsJson (sql_select (getSessionId req) (db w))) w1).
Proof.
  unfold serve, get_records. cbn beta zeta.
  step_handler. rewrite pool_query_eq, down_with_sent. cbn [db with_sent].
  by destruct (down w).
Qed.

Lemma get_recover_eq req w :
  serve get_recover req w =
    let w1 := with_issued (SELECT (getSessionId req)) (with_sent None w) in
    if down w
    then (Returned (),
          answer 500 (ErrorJson "Error interno del servidor")
                 (logged "Error al recuperar datos:" w1))
    else (Returned (),
          answer 200 (RowsJson (sql_select (getSessionId req) (db w))) w1).
Proof.
  unfold serve, get_recover. cbn beta zeta.
  step_handler. rewrite pool_query_eq, down_with_sent. cbn [db with_sent].
  by destruct (down w).
Qed.

Lemma get_export_eq req w :
  serve get_export req w =
    let sid := getSessionId req in
    let w1 := with_issued (SELECT_SUM sid) (with_sent None w) in
    let failed := (Returned (),
                   answer 500 (ErrorJson "Error al generar el reporte")
                          (logged "Error al exportar:" w1)) in
    if down w then failed
    else if writer_fails w then failed
    else
      let w2 := with_issued (DELETE_SESSION sid)
                  (with_sent (Some (export_response (today w) (sql_totals sid (db w))))
                             w1) in
      if down w1
      then (Thrown ERR_HTTP_HEADERS_SENT, logged "Error al exportar:" w2)
      else (Returned (), with_db (sql_purge sid (db w)).1 w2).
Proof.
  unfold serve, get_export. cbn beta zeta.
  step_handler. rewrite pool_query_eq, down_with_sent. cbn [db with_sent].
  destruct (down w); [done|]. cbn.
  destruct (writer_fails w); [done|]. cbn.
  rewrite pool_query_eq.
  match goal with |- context [down ?x] => change (down x) with
      (down (with_issued (SELECT_SUM (getSessionId req)) (with_sent None w))) end.
  by destruct (down _).
Qed.

End Equations.

Lemma post_save_strict_eq req (w : World (V := strict_js)) :
  serve post_save_strict req w =
    let w0 := logged "Datos recibidos:" (with_sent None w) in
    if post_invalid req
    then (Returned (),
          answer 400 (MissingJson "Faltan datos requeridos" (body req)
                        ["code"; "name"; "quantity"]) w0)
    else
      match body_code (body req) with
      | JNumber _ | JNaN => (Thrown (TypeError "Assignment to constant variable."), w0)
      | JString s =>
          if 50 <? Z.of_nat (String.length s)
          then (Returned (),
                answer 400 (TooLongJson "El código es demasiado largo" 50
                              (Z.of_nat (String.length s))) w0)
          else
            let st := INSERT (JString s) (body_name (body req))
                        (parseInt (body_quantity (body req))) (getSessionId req) in
            let w1 := with_issued st w0 in
            let failed :=
              (Returned (),
               answer 500
                 (InternalJson "Error interno del servidor"
                    (if bool_decide (node_env w = "development")
                     then Some (exn_message DbError) else None))
                 (logged "Error al guardar:" w1)) in
            if down w then failed
            else match sql_insert (now w) (JString s) (body_name (body req))
                         (parseInt (body_quantity (body req))) (getSessionId req)
                         (db w) with
                 | None => failed
                 | Some (d, i) =>
                     (Returned (),
                      answer 200 (SavedJson "Registro guardado exitosamente" i)
                             (with_db d w1))
                 end
      | v => (Returned (),
              answer 400 (NotTextJson "El código debe ser una cadena de texto"
                            (typeof v) "ABC123 o 123456") w0)
      end.
Proof.
  unfold serve, post_save_strict, post_invalid. cbn beta zeta.
  step_handler. destruct (_ || _ || _); [done|].
  destruct (body_code (body req)) as [| |b|k| |s]; cbn [typeof];
    try change (bool_decide ("undefined" = "number")) with false;
    try change (bool_decide ("object" = "number")) with false;
    try change (bool_decide ("boolean" = "number")) with false;
    try change (bool_decide ("number" = "number")) with true;
    try change (bool_decide ("string" = "number")) with false; cbn;
    try change (bool_decide ("undefined" = "string")) with false;
    try change (bool_decide ("object" = "string")) with false;
    try change (bool_decide ("boolean" = "string")) with false;
    try change (bool_decide ("string" = "string")) with true; cbn; try done.
  destruct (50 <? Z.of_nat (String.length s)); [done|].
  rewrite pool_query_eq.
  match goal with |- context [down ?x] => change (down x) with (down w) end.
  destruct (down w); [done|]. cbn.
  match goal with
  | |- context [sql_insert ?t ?c ?n ?q ?sid ?d] =>
      by destruct (sql_insert t c n q sid d) as [[d' i]|]
  end.
Qed.

(** ** Answers of [backend/server.js] *)

Ltac in_list := repeat first [apply list_elem_of_here | apply list_elem_of_further].

(** What [serve] leaves, endpoint by endpoint. *)
Ltac by_endpoint e :=
  destruct e; cbn [route_server invalid statuses error_label];
  rewrite ?post_save_eq, ?put_save_eq, ?delete_delete_eq, ?get_records_eq,
    ?get_recover_eq, ?get_export_eq; cbn zeta.

(** X1. Every endpoint of [backend/server.js] answers every request, in
    every world, with a status of its own short list; apart from
    [GET /export] the handler's promise always resolves. *)
Theorem server_always_answers
    (e : Endpoint) (req : Request) (w : World (V := server_js)) :
  (exists s, status_sent (serve (route_server e) req w).2 = Some s /\ s ∈ statuses e)
  /\ (e <> GET_export -> (serve (route_server e) req w).1 = Returned ()).
Proof.
  by_endpoint e.
  - destruct (post_invalid req); [split; [exists 400; split; [done|in_list]|done]|].
    destruct (down w); [split; [exists 500; split; [done|in_list]|done]|].
    destruct (post_run _ _ _) as [[d i]|];
      (split; [eexists; split; [reflexivity|in_list]|done]).
  - destruct (put_invalid req); [split; [exists 400; split; [done|in_list]|done]|].
    destruct (down w); [split; [exists 500; split; [done|in_list]|done]|].
    destruct (put_run _ _) as [[d k]|];
      [|split; [exists 500; split; [done|in_list]|done]].
    destruct (bool_decide (k = 0%nat));
      (split; [eexists; split; [reflexivity|in_list]|done]).
  - destruct (delete_invalid req); [split; [exists 400; split; [done|in_list]|done]|].
    destruct (down w); [split; [exists 500; split; [done|in_list]|done]|].
    destruct (sql_delete _ _ _) as [[d k]|];
      [|split; [exists 500; split; [done|in_list]|done]].
    destruct (bool_decide (k = 0%nat));
      (split; [eexists; split; [reflexivity|in_list]|done]).
  - destruct (down w); (split; [eexists; split; [reflexivity|in_list]|done]).
  - destruct (down w); (split; [eexists; split; [reflexivity|in_list]|done]).
  - destruct (down w); [split; [exists 500; split; [done|in_list]|done]|].
    destruct (writer_fails w); [split; [exists 500; split; [done|in_list]|done]|].
    destruct (down _); (split; [exists 200; split; [done|in_list]|done]).
Qed.

(** X2. In [backend/server.js] the 400 answer is decided on the request
    alone, before the store is touched: an endpoint answers 400 exactly
    when its validation test holds for the request, whatever the world, and
    then no statement has been sent and the database is as it was. *)
Theorem validation_precedes_store
    (e : Endpoint) (req : Request) (w : World (V := server_js)) :
  (status_sent (serve (route_server e) req w).2 = Some 400 <-> invalid e req = true)
  /\ (invalid e req = true ->
      new_statements w (serve (route_server e) req w).2 = []
      /\ db (serve (route_server e) req w).2 = db w).
Proof.
  assert (forall w' : World (V := server_js),
             issued w' = issued w -> new_statements w w' = []) as Hnew.
  { intros w' Hw'. apply new_statements_app. by rewrite app_nil_r. }
  by_endpoint e.
  - destruct (post_invalid req); [by split; [|split; [apply Hnew|]]|].
    split; [|done]. destruct (down w); [done|].
    by destruct (post_run _ _ _) as [[d i]|].
  - destruct (put_invalid req); [by split; [|split; [apply Hnew|]]|].
    split; [|done]. destruct (down w); [done|].
    destruct (put_run _ _) as [[d k]|]; [|done].
    by destruct (bool_decide (k = 0%nat)).
  - destruct (delete_invalid req); [by split; [|split; [apply Hnew|]]|].
    split; [|done]. destruct (down w); [done|].
    destruct (sql_delete _ _ _) as [[d k]|]; [|done].
    by destruct (bool_decide (k = 0%nat)).
  - split; [|done]. by destruct (down w).
  - split; [|done]. by destruct (down w).
  - split; [|done]. destruct (down w); [done|].
    destruct (writer_fails w); [done|]. by destruct (down _).
Qed.

(** X3. When the connection to the store fails, every endpoint of
    [backend/server.js] resolves, answers 400 (validation) or 500, never
    200, and leaves the database as it was. *)
Theorem outage_changes_nothing
    (e : Endpoint) (req : Request) (w : World (V := server_js)) :
  ~ store_up 0 w ->
  (serve (route_server e) req w).1 = Returned ()
  /\ db (serve (route_server e) req w).2 = db w
  /\ (status_sent (serve (route_server e) req w).2 = Some 400
      \/ status_sent (serve (route_server e) req w).2 = Some 500).
Proof.
  intros Hdown. assert (down w = true) as Hd.
  { destruct (down w) eqn:H; [done|]. by apply down_store_up in H. }
  by_endpoint e; rewrite Hd.
  - destruct (post_invalid req); cbn; auto.
  - destruct (put_invalid req); cbn; auto.
  - destruct (delete_invalid req); cbn; auto.
  - cbn; auto.
  - cbn; auto.
  - cbn; auto.
Qed.

Lemma outage_changes_nothing_witness :
  ~ store_up 0 (faulty [true] false sample_db)
  /\ (serve (route_server POST_save)
            (request "s1" "" (JNumber 7) (JString "Widget") (JNumber 3))
            (faulty [true] false sample_db)).1 = Returned ()
  /\ db (serve (route_server POST_save)
               (request "s1" "" (JNumber 7) (JString "Widget") (JNumber 3))
               (faulty [true] false sample_db)).2 = sample_db
  /\ (status_sent (serve (route_server POST_save)
                         (request "s1" "" (JNumber 7) (JString "Widget") (JNumber 3))
                         (faulty [true] false sample_db)).2 = Some 400
      \/ status_sent (serve (route_server POST_save)
                            (request "s1" "" (JNumber 7) (JString "Widget") (JNumber 3))
                            (faulty [true] false sample_db)).2 = Some 500).
Proof.
  assert (~ store_up 0 (faulty [true] false sample_db)) as H.
  { unfold store_up. cbn. auto. }
  split; [exact H|].
  exact (outage_changes_nothing POST_save
           (request "s1" "" (JNumber 7) (JString "Widget") (JNumber 3))
           (faulty [true] false sample_db) H).
Defined.

(** ** Sessions are framed *)

Section Frame.
Context {V : Variant}.

Lemma select_insert_other t c n q sid' d d' i sid :
  sql_insert t c n q sid' d = Some (d', i) -> sid <> sid' ->
  sql_select sid d' = sql_select sid d.
Proof.
  intros (c' & n' & q' & _ & _ & _ & _ & _ & ->)%sql_insert_Some Hne.
  unfold sql_select. cbn [table]. rewrite filter_app.
  rewrite filter_cons_False, filter_nil, app_nil_r; [done|].
  unfold in_session. cbn. rewrite bool_decide_eq_false_2; [done|congruence].
Qed.

Lemma owned_in_session i sid r : owned i sid r = true -> session_id r = sid.
Proof.
  unfold owned. intros [_ H]%andb_prop. by apply bool_decide_eq_true in H.
Qed.

Lemma select_update_other c n q i sid' d d' k sid :
  sql_update c n q i sid' d = Some (d', k) -> sid <> sid' ->
  sql_select sid d' = sql_select sid d.
Proof.
  intros (c' & n' & q' & i' & _ & _ & _ & _ & Ht & _ & _)%sql_update_Some Hne.
  unfold sql_select. rewrite Ht. clear Ht.
  induction (table d) as [|r l IH]; [done|]. cbn [map].
  destruct (owned i' sid' r) eqn:Ho.
  - apply owned_in_session in Ho.
    rewrite !filter_cons_False; [done| |].
    + unfold in_session. rewrite bool_decide_eq_false_2; [done|congruence].
    + unfold in_session. cbn. rewrite bool_decide_eq_false_2; [done|congruence].
  - destruct (in_session sid r) eqn:Hs.
    + rewrite !filter_cons_True by done. by f_equal.
    + by rewrite !filter_cons_False by (by rewrite Hs).
Qed.

Lemma select_filter_other (P : ScanRecord -> Prop) `{!forall r, Decision (P r)}
    (l : list ScanRecord) sid :
  (forall r, session_id r = sid -> P r) ->
  filter (fun r => in_session sid r = true) (filter P l)
  = filter (fun r => in_session sid r = true) l.
Proof.
  intros HP. induction l as [|r l IH]; [done|].
  destruct (in_session sid r) eqn:Hs.
  - rewrite (filter_cons_True P) by (apply HP; by apply bool_decide_eq_true in Hs).
    rewrite !filter_cons_True by done. by f_equal.
  - rewrite (filter_cons_False (fun r => in_session sid r = true) r l)
      by (by rewrite Hs).
    destruct (decide (P r)).
    + rewrite (filter_cons_True P) by done.
      by rewrite filter_cons_False by (by rewrite Hs).
    + by rewrite (filter_cons_False P).
Qed.

Lemma select_delete_other i sid' d d' k sid :
  sql_delete i sid' d = Some (d', k) -> sid <> sid' ->
  sql_select sid d' = sql_select sid d.
Proof.
  intros (i' & _ & -> & _)%sql_delete_Some Hne. unfold sql_select. cbn [table].
  apply select_filter_other. intros r Hr.
  destruct (owned i' sid' r) eqn:Ho; [|done].
  apply owned_in_session in Ho. congruence.
Qed.

Lemma select_purge_other sid' d sid :
  sid <> sid' -> sql_select sid (sql_purge sid' d).1 = sql_select sid d.
Proof.
  intros Hne. unfold sql_select, sql_purge. cbn [table fst].
  apply select_filter_other. intros r Hr.
  unfold in_session. apply bool_decide_eq_false. congruence.
Qed.

(** The endpoints that both deployments share. *)
Lemma shared_endpoints_frame (h : Request -> M unit) req w sid :
  h = put_save \/ h = delete_delete \/ h = get_records \/ h = get_recover
  \/ h = get_export ->
  sid <> getSessionId req ->
  sql_select sid (db (serve h req w).2) = sql_select sid (db w).
Proof.
  intros Hh Hne. destruct Hh as [->|[->|[->|[->| ->]]]].
  - rewrite put_save_eq. destruct (put_invalid req); [done|]. cbn zeta.
    destruct (down w); [done|].
    destruct (put_run req (db w)) as [[d k]|] eqn:Hrun; [|done].
    cbn. by eapply select_update_other.
  - rewrite delete_delete_eq. destruct (delete_invalid req); [done|]. cbn zeta.
    destruct (down w); [done|].
    destruct (sql_delete _ _ _) as [[d k]|] eqn:Hrun; [|done].
    cbn. by eapply select_delete_other.
  - rewrite get_records_eq. cbn zeta. by destruct (down w).
  - rewrite get_recover_eq. cbn zeta. by destruct (down w).
  - rewrite get_export_eq. cbn zeta. destruct (down w); [done|].
    destruct (writer_fails w); [done|]. destruct (down _); [done|].
    cbn. by apply select_purge_other.
Qed.

End Frame.

(** X4. In both deployments, whatever a request does, it does to its own
    session: after any endpoint has served a request, the records of every
    other session are the same, in the same order, as before. *)
Theorem other_sessions_untouched (e : Endpoint) (req : Request) (sid : string) :
  sid <> getSessionId req ->
  (forall w : World (V := server_js),
      sql_select sid (db (serve (route_server e) req w).2) = sql_select sid (db w))
  /\ (forall w : World (V := strict_js),
      sql_select sid (db (serve (route_strict e) req w).2) = sql_select sid (db w)).
Proof.
  intros Hne. split; intros w.
  - destruct e; cbn [route_server];
      try (apply shared_endpoints_frame; [tauto|done]).
    rewrite post_save_eq. destruct (post_invalid req); [done|]. cbn zeta.
    destruct (down w); [done|].
    destruct (post_run _ _ _) as [[d i]|] eqn:Hrun; [|done].
    cbn. by eapply select_insert_other.
  - destruct e; cbn [route_strict];
      try (apply shared_endpoints_frame; [tauto|done]).
    rewrite post_save_strict_eq. cbn zeta. destruct (post_invalid req); [done|].
    destruct (body_code (body req)) as [| |b|k| |s]; try done.
    destruct (50 <? _); [done|]. destruct (down w); [done|].
    destruct (sql_insert _ _ _ _ _ _) as [[d i]|] eqn:Hrun; [|done].
    cbn. by eapply select_insert_other.
Qed.

Lemma other_sessions_untouched_witness :
  "s2" <> getSessionId (get "s1")
  /\ (forall w : World (V := server_js),
        sql_select "s2" (db (serve (route_server GET_export) (get "s1") w).2)
        = sql_select "s2" (db w))
  /\ (forall w : World (V := strict_js),
        sql_select "s2" (db (serve (route_strict GET_export) (get "s1") w).2)
        = sql_select "s2" (db w)).
Proof.
  assert ("s2" <> getSessionId (get "s1")) as H by done.
  split; [exact H|].
  exact (other_sessions_untouched GET_export (get "s1") "s2" H).
Defined.

(** ** One row at a time *)

Section OneRow.
Context {V : Variant}.

Lemma key_split (l1 l2 : list ScanRecord) r :
  NoDup (map id (l1 ++ r :: l2)) -> Forall (fun x => id x <> id r) (l1 ++ l2).
Proof.
  rewrite map_app. cbn [map]. intros (_ & H1 & [H2 _]%NoDup_cons)%NoDup_app.
  apply Forall_app. split; apply Forall_forall; intros x Hx Heq.
  - apply (H1 (id x)); [apply list_elem_of_fmap; by exists x|].
    rewrite Heq. apply list_elem_of_here.
  - apply H2. rewrite <- Heq. apply list_elem_of_fmap. by exists x.
Qed.

Lemma filter_id_absent (l : list ScanRecord) i :
  Forall (fun x => id x <> i) l -> filter (fun x => id x = i) l = [].
Proof.
  induction 1 as [|x l Hx _ IH]; [done|]. by rewrite filter_cons_False.
Qed.

(** With [id] a key, a statement aimed at [(i, sid)] that counts a row
    found exactly one, and the table splits around it. *)
Lemma target_split i sid (d : Db) :
  wf_db d ->
  length (filter (fun r => owned i sid r = true) (table d)) <> 0%nat ->
  exists l1 r l2,
    table d = l1 ++ r :: l2 /\ id r = i /\ session_id r = sid
    /\ Forall (fun x => owned i sid x = false) (l1 ++ l2)
    /\ Forall (fun x => id x <> i) (l1 ++ l2)
    /\ length (filter (fun r => owned i sid r = true) (table d)) = 1%nat.
Proof.
  intros [Hnd _] Hk.
  destruct (owned_split i sid (table d) Hnd) as (l1 & r & l2 & Hl & Hi & Hs & Hrest).
  { intros Hnil. by rewrite Hnil in Hk. }
  exists l1, r, l2. repeat (split; [done|]). split.
  - rewrite <- Hi. apply key_split. by rewrite <- Hl.
  - rewrite Hl, filter_app. apply Forall_app in Hrest as [H1 H2].
    rewrite (proj1 (filter_not_owned _ _ _ H1)).
    rewrite filter_cons_True.
    2:{ unfold owned. by rewrite Hi, Hs, !bool_decide_eq_true_2. }
    by rewrite (proj1 (filter_not_owned _ _ _ H2)).
Qed.

Lemma sql_delete_one i sid d d' k :
  wf_db d -> sql_delete i sid d = Some (d', k) -> k <> 0%nat ->
  exists i' l1 r l2,
    pg_int4_in i = Some i'
    /\ table d = l1 ++ r :: l2 /\ id r = i' /\ session_id r = sid
    /\ table d' = l1 ++ l2 /\ id_seq d' = id_seq d
    /\ Forall (fun x => id x <> i') (table d') /\ k = 1%nat.
Proof.
  intros Hwf (i' & Hi & -> & ->)%sql_delete_Some Hk.
  destruct (target_split i' sid d Hwf Hk) as (l1 & r & l2 & Hl & Hri & Hrs & Ho & Hk' & H1).
  exists i', l1, r, l2. repeat (split; [done|]). cbn [table id_seq].
  assert (filter (fun r0 => owned i' sid r0 = false) (table d) = l1 ++ l2) as ->.
  { rewrite Hl, filter_app. apply Forall_app in Ho as [Ho1 Ho2].
    rewrite (proj2 (filter_not_owned _ _ _ Ho1)).
    rewrite filter_cons_False.
    2:{ unfold owned. rewrite Hri, Hrs, !bool_decide_eq_true_2 by done. done. }
    by rewrite (proj2 (filter_not_owned _ _ _ Ho2)). }
  done.
Qed.

Lemma sql_update_one c n q i sid d d' k :
  wf_db d -> sql_update c n q i sid d = Some (d', k) -> k <> 0%nat ->
  exists c' n' q' i' l1 r l2,
    bind_code c = Some c' /\ bind_text n = Some n' /\ bind_int4 q = Some q'
    /\ pg_int4_in i = Some i'
    /\ table d = l1 ++ r :: l2 /\ id r = i' /\ session_id r = sid
    /\ table d' = l1 ++ overwrite c' n' q' r :: l2 /\ id_seq d' = id_seq d
    /\ Forall (fun x => id x <> i') (l1 ++ l2) /\ k = 1%nat.
Proof.
  intros Hwf (c' & n' & q' & i' & Hc & Hn & Hq & Hi & Ht & Hs & ->)%sql_update_Some Hk.
  destruct (target_split i' sid d Hwf Hk) as (l1 & r & l2 & Hl & Hri & Hrs & Ho & Hk' & H1).
  exists c', n', q', i', l1, r, l2. repeat (split; [done|]).
  split; [|done]. rewrite Ht, Hl, map_app. cbn [map].
  apply Forall_app in Ho as [Ho1 Ho2]. rewrite !map_not_owned by done.
  unfold owned. by rewrite Hri, Hrs, !bool_decide_eq_true_2.
Qed.

End OneRow.

(** X5. A successful [DELETE /delete/:id] removes exactly the one row
    that matches both the id and the session: every other row stays, in
    order; the sequence does not move; no row with that id is left. *)
Theorem delete_removes_one_row `{V : Variant} (req : Request) (w : World) :
  wf_db (db w) ->
  status_sent (serve delete_delete req w).2 = Some 200 ->
  exists i l1 r l2,
    pg_int4_in (params_id req) = Some i
    /\ table (db w) = l1 ++ r :: l2
    /\ id r = i /\ session_id r = getSessionId req
    /\ table (db (serve delete_delete req w).2) = l1 ++ l2
    /\ id_seq (db (serve delete_delete req w).2) = id_seq (db w)
    /\ Forall (fun x => id x <> i) (table (db (serve delete_delete req w).2)).
Proof.
  intros Hwf. rewrite delete_delete_eq.
  destruct (delete_invalid req); [done|]. cbn zeta.
  destruct (down w); [done|].
  destruct (sql_delete _ _ _) as [[d k]|] eqn:Hrun; [|done].
  destruct (bool_decide (k = 0%nat)) eqn:Hk; [done|]. intros _.
  apply bool_decide_eq_false in Hk.
  destruct (sql_delete_one _ _ _ _ _ Hwf Hrun Hk)
    as (i & l1 & r & l2 & Hi & Hl & Hri & Hrs & Ht & Hs & Hgone & _).
  exists i, l1, r, l2. cbn [snd db answer with_sent with_db]. done.
Qed.

Lemma delete_removes_one_row_witness :
  wf_db (db (quiet sample_db))
  /\ status_sent
       (serve delete_delete (request "s1" "2" JUndefined JUndefined JUndefined)
              (quiet sample_db)).2 = Some 200
  /\ exists i l1 r l2,
    pg_int4_in "2" = Some i
    /\ table sample_db = l1 ++ r :: l2
    /\ id r = i /\ session_id r = "s1"
    /\ table (db (serve delete_delete
                    (request "s1" "2" JUndefined JUndefined JUndefined)
                    (quiet sample_db)).2) = l1 ++ l2
    /\ id_seq (db (serve delete_delete
                     (request "s1" "2" JUndefined JUndefined JUndefined)
                     (quiet sample_db)).2) = id_seq sample_db
    /\ Forall (fun x => id x <> i)
         (table (db (serve delete_delete
                       (request "s1" "2" JUndefined JUndefined JUndefined)
                       (quiet sample_db)).2)).
Proof.
  split; [apply sample_db_wf|]. split; [done|].
  exact (delete_removes_one_row
           (request "s1" "2" JUndefined JUndefined JUndefined)
           (quiet sample_db) sample_db_wf eq_refl).
Defined.

Section Compositions.
Context {V : Variant}.

Lemma absent_id_not_owned i sid (l : list ScanRecord) :
  Forall (fun x => id x <> i) l -> Forall (fun x => owned i sid x = false) l.
Proof.
  intros H. eapply Forall_impl; [exact H|]. intros x Hx. unfold owned.
  by rewrite bool_decide_eq_false_2.
Qed.

Lemma Forall_filter_keep (P : ScanRecord -> Prop) (Q : ScanRecord -> Prop)
    `{!forall r, Decision (Q r)} (l : list ScanRecord) :
  Forall P l -> Forall P (filter Q l).
Proof.
  rewrite !Forall_forall. intros HP x Hx. apply list_elem_of_filter in Hx as [_ Hx].
  by apply HP.
Qed.

(** A delete that finds no row with the id leaves the database alone and
    counts zero. *)
Lemma sql_delete_absent i i' sid (d : Db) :
  pg_int4_in i = Some i' -> Forall (fun x => id x <> i') (table d) ->
  sql_delete i sid d = Some (d, 0%nat).
Proof.
  intros Hi Habs. unfold sql_delete. rewrite Hi. cbn.
  destruct (filter_not_owned _ _ _ (absent_id_not_owned i' sid _ Habs)) as [-> ->].
  by rewrite db_eta.
Qed.

End Compositions.

(** X6. [DELETE /delete/:id] is not repeatable: once it has answered 200,
    the same request sent again finds nothing, answers 404 and changes
    nothing. *)
Theorem delete_twice_not_found `{V : Variant} (req : Request) (w : World) :
  wf_db (db w) ->
  status_sent (serve delete_delete req w).2 = Some 200 ->
  store_up 0 (serve delete_delete req w).2 ->
  replied 404 (ErrorJson "Registro no encontrado o no pertenece a esta sesión")
          (serve delete_delete req (serve delete_delete req w).2).2
  /\ db (serve delete_delete req (serve delete_delete req w).2).2
     = db (serve delete_delete req w).2.
Proof.
  intros Hwf. rewrite (delete_delete_eq req w).
  destruct (delete_invalid req) eqn:Hv; [done|]. cbn zeta.
  destruct (down w); [done|].
  destruct (sql_delete _ _ _) as [[d k]|] eqn:Hrun; [|done].
  destruct (bool_decide (k = 0%nat)) eqn:Hk; [done|]. intros _.
  apply bool_decide_eq_false in Hk.
  destruct (sql_delete_one _ _ _ _ _ Hwf Hrun Hk)
    as (i & l1 & r & l2 & Hi & _ & _ & _ & _ & _ & Hgone & _).
  cbn [snd]. intros Hup%down_store_up.
  rewrite delete_delete_eq, Hv. cbn zeta. rewrite Hup.
  cbn [db answer with_sent with_db] in *.
  rewrite (sql_delete_absent _ _ _ _ Hi Hgone). done.
Qed.

Lemma delete_twice_not_found_witness :
  wf_db (db (quiet sample_db))
  /\ status_sent
       (serve delete_delete (request "s1" "2" JUndefined JUndefined JUndefined)
              (quiet sample_db)).2 = Some 200
  /\ store_up 0
       (serve delete_delete (request "s1" "2" JUndefined JUndefined JUndefined)
              (quiet sample_db)).2
  /\ replied 404 (ErrorJson "Registro no encontrado o no pertenece a esta sesión")
       (serve delete_delete (request "s1" "2" JUndefined JUndefined JUndefined)
          (serve delete_delete (request "s1" "2" JUndefined JUndefined JUndefined)
                 (quiet sample_db)).2).2
  /\ db (serve delete_delete (request "s1" "2" JUndefined JUndefined JUndefined)
           (serve delete_delete (request "s1" "2" JUndefined JUndefined JUndefined)
                  (quiet sample_db)).2).2
     = db (serve delete_delete (request "s1" "2" JUndefined JUndefined JUndefined)
                 (quiet sample_db)).2.
Proof.
  assert (store_up 0
            (serve delete_delete (request "s1" "2" JUndefined JUndefined JUndefined)
                   (quiet sample_db)).2) as Hup by done.
  split; [apply sample_db_wf|]. split; [done|]. split; [exact Hup|].
  exact (delete_twice_not_found
           (request "s1" "2" JUndefined JUndefined JUndefined)
           (quiet sample_db) sample_db_wf eq_refl Hup).
Defined.

(** X7. After a successful [PUT /save/:id], [GET /records] for the same
    session lists exactly one record with that id, and it carries the
    code, name and quantity the request gave (as the store read them). *)
Theorem update_then_list `{V : Variant} (req req' : Request) (w : World) :
  wf_db (db w) ->
  status_sent (serve put_save req w).2 = Some 200 ->
  getSessionId req' = getSessionId req ->
  store_up 0 (serve put_save req w).2 ->
  exists i c n q rows r',
    pg_int4_in (params_id req) = Some i
    /\ bind_code (body_code (body req)) = Some c
    /\ bind_text (body_name (body req)) = Some n
    /\ bind_int4 (body_quantity (body req)) = Some q
    /\ replied 200 (RowsJson rows)
         (serve get_records req' (serve put_save req w).2).2
    /\ filter (fun x => id x = i) rows = [r']
    /\ code r' = c /\ name r' = n /\ quantity r' = q.
Proof.
  intros Hwf. rewrite (put_save_eq req w).
  destruct (put_invalid req); [done|]. cbn zeta.
  destruct (down w); [done|].
  destruct (put_run req (db w)) as [[d k]|] eqn:Hrun; [|done].
  destruct (bool_decide (k = 0%nat)) eqn:Hk; [done|]. intros _ Hsid.
  apply bool_decide_eq_false in Hk.
  destruct (sql_update_one _ _ _ _ _ _ _ _ Hwf Hrun Hk)
    as (c & n & q & i & l1 & r & l2 & Hc & Hn & Hq & Hi & _ & Hri & Hrs & Ht & _
        & Habs & _).
  cbn [snd]. intros Hup%down_store_up.
  exists i, c, n, q, (sql_select (getSessionId req) d), (overwrite c n q r).
  repeat (split; [done|]).
  split.
  { rewrite get_records_eq. cbn zeta. rewrite Hup, Hsid. done. }
  split; [|done].
  unfold sql_select. rewrite Ht, filter_app.
  rewrite (filter_cons_True _ (overwrite c n q r));
    [|unfold in_session; cbn; by rewrite bool_decide_eq_true_2].
  apply Forall_app in Habs as [H1 H2].
  rewrite filter_app, filter_cons_True by done.
  rewrite !filter_id_absent; [done| |]; by apply Forall_filter_keep.
Qed.

Lemma update_then_list_witness :
  wf_db (db (quiet sample_db))
  /\ status_sent
       (serve put_save (request "s1" "2" (JNumber 9) (JString "Bolt") (JNumber 12))
              (quiet sample_db)).2 = Some 200
  /\ getSessionId (get "s1")
     = getSessionId (request "s1" "2" (JNumber 9) (JString "Bolt") (JNumber 12))
  /\ store_up 0
       (serve put_save (request "s1" "2" (JNumber 9) (JString "Bolt") (JNumber 12))
              (quiet sample_db)).2
  /\ exists i c n q rows r',
    pg_int4_in "2" = Some i
    /\ bind_code (JNumber 9) = Some c
    /\ bind_text (JString "Bolt") = Some n
    /\ bind_int4 (JNumber 12) = Some q
    /\ replied 200 (RowsJson rows)
         (serve get_records (get "s1")
            (serve put_save (request "s1" "2" (JNumber 9) (JString "Bolt") (JNumber 12))
                   (quiet sample_db)).2).2
    /\ filter (fun x => id x = i) rows = [r']
    /\ code r' = c /\ name r' = n /\ quantity r' = q.
Proof.
  assert (store_up 0
            (serve put_save (request "s1" "2" (JNumber 9) (JString "Bolt") (JNumber 12))
                   (quiet sample_db)).2) as Hup by done.
  split; [apply sample_db_wf|]. split; [done|]. split; [done|]. split; [exact Hup|].
  exact (update_then_list
           (request "s1" "2" (JNumber 9) (JString "Bolt") (JNumber 12)) (get "s1")
           (quiet sample_db) sample_db_wf eq_refl eq_refl Hup).
Defined.



(** X9. A second [GET /export] right after a successful one finds the
    session empty: it answers 200 again, with the header row alone. *)
Theorem export_twice `{V : Variant} (req : Request) (w : World) :
  store_up 0 w -> store_up 1 w -> writer_fails w = false ->
  store_up 0 (serve get_export req w).2 ->
  exists disposition sheet,
    sent (serve get_export req (serve get_export req w).2).2
    = Some {| status := 200; payload := XlsxBody xlsx_mime disposition [sheet] |}
    /\ sheet_cells sheet
       = [[CellText "Código"; CellText "Nombre"; CellText "Cantidad Total"]].
Proof.
  intros Hup H1 Hw Hup2.
  destruct (get_export_built req w Hup Hw) as (_ & _ & Hok & _).
  destruct (Hok H1) as [_ Hdb].
  assert (writer_fails (serve get_export req w).2 = false) as Hw2.
  { rewrite get_export_eq. cbn zeta.
    destruct (down w); [exact Hw|]. rewrite Hw.
    destruct (down _); exact Hw. }
  destruct (get_export_built req _ Hup2 Hw2) as (Hsent & _).
  eexists _, _. split; [exact Hsent|].
  unfold sql_totals. by rewrite Hdb, select_after_purge.
Qed.

Lemma export_twice_witness :
  store_up 0 (quiet sample_db) /\ store_up 1 (quiet sample_db)
  /\ writer_fails (quiet sample_db) = false
  /\ store_up 0 (serve get_export (get "s1") (quiet sample_db)).2
  /\ exists disposition sheet,
    sent (serve get_export (get "s1")
            (serve get_export (get "s1") (quiet sample_db)).2).2
    = Some {| status := 200; payload := XlsxBody xlsx_mime disposition [sheet] |}
    /\ sheet_cells sheet
       = [[CellText "Código"; CellText "Nombre"; CellText "Cantidad Total"]].
Proof.
  assert (store_up 0 (quiet sample_db)) as H0 by done.
  assert (store_up 1 (quiet sample_db)) as H1 by done.
  assert (store_up 0 (serve get_export (get "s1") (quiet sample_db)).2) as H2 by done.
  split; [exact H0|]. split; [exact H1|]. split; [done|]. split; [exact H2|].
  exact (export_twice (get "s1") (quiet sample_db) H0 H1 eq_refl H2).
Defined.

(** ** The sequence along runs *)

Lemma assigned_ids_sorted calls (w : World (V := server_js)) :
  wf_db (db w) ->
  Forall (fun i => id_seq (db w) <= i) (assigned_ids calls w)
  /\ StronglySorted Z.lt (assigned_ids calls w).
Proof.
  revert w. induction calls as [|[e req] calls IH]; intros w Hwf; cbn.
  { split; constructor. }
  destruct (route_server_step e req w Hwf) as (Hwf' & Hle & Hnew).
  destruct (IH _ Hwf') as (Hlow & Hsorted).
  assert (Forall (fun i => id_seq (db w) <= i)
            (assigned_ids calls (serve (route_server e) req w).2)) as Hlow'.
  { eapply Forall_impl; [exact Hlow|]. cbn. intros; lia. }
  destruct (created_id _) as [i|] eqn:Hc; cbn; [|done].
  specialize (Hnew i eq_refl). split.
  - constructor; [lia|done].
  - constructor; [done|]. eapply Forall_impl; [exact Hlow|]. cbn. intros; lia.
Qed.

(** X10. The ids [POST /save] answers with along any run of
    [backend/server.js] are strictly increasing, hence never repeated,
    whatever was deleted or exported in between; each lies between the
    sequence's value before the run and its value after. *)
Theorem assigned_ids_increasing (calls : list Call) (w : World (V := server_js)) :
  wf_db (db w) ->
  StronglySorted Z.lt (assigned_ids calls w)
  /\ NoDup (assigned_ids calls w)
  /\ Forall (fun i => id_seq (db w) <= i < id_seq (db (run_server calls w)))
            (assigned_ids calls w).
Proof.
  intros Hwf. destruct (assigned_ids_sorted calls w Hwf) as [Hlow Hsorted].
  destruct (run_server_ok calls w Hwf) as (_ & _ & Hhigh).
  split; [done|]. split.
  - clear Hlow Hhigh. induction Hsorted as [|i l _ IH Hall]; [constructor|].
    apply NoDup_cons. split; [|done]. intros Hin.
    rewrite Forall_forall in Hall. specialize (Hall _ Hin). lia.
  - rewrite Forall_forall in Hlow, Hhigh |- *. intros i Hi.
    specialize (Hlow _ Hi). specialize (Hhigh _ Hi). lia.
Qed.

Lemma assigned_ids_increasing_witness :
  wf_db (db (quiet sample_db))
  /\ StronglySorted Z.lt
       (assigned_ids
          (sample_calls
           ++ [(POST_save, request "s2" "" (JNumber 3) (JString "Nut") (JNumber 2))])
          (quiet sample_db))
  /\ NoDup
       (assigned_ids
          (sample_calls
           ++ [(POST_save, request "s2" "" (JNumber 3) (JString "Nut") (JNumber 2))])
          (quiet sample_db))
  /\ Forall (fun i => id_seq (db (quiet sample_db)) <= i
                      < id_seq (db (run_server
                          (sample_calls
                           ++ [(POST_save,
                                request "s2" "" (JNumber 3) (JString "Nut") (JNumber 2))])
                          (quiet sample_db))))
       (assigned_ids
          (sample_calls
           ++ [(POST_save, request "s2" "" (JNumber 3) (JString "Nut") (JNumber 2))])
          (quiet sample_db)).
Proof.
  split; [apply sample_db_wf|].
  exact (assigned_ids_increasing
           (sample_calls
            ++ [(POST_save, request "s2" "" (JNumber 3) (JString "Nut") (JNumber 2))])
           (quiet sample_db) sample_db_wf).
Defined.

Example sample_run_two_creates :
  assigned_ids
    (sample_calls
     ++ [(POST_save, request "s2" "" (JNumber 3) (JString "Nut") (JNumber 2))])
    (quiet sample_db) = [4; 5].
Proof. reflexivity. Qed.

Lemma post_save_strict_step req (w : World (V := strict_js)) :
  wf_db (db w) -> step_ok w (serve post_save_strict req w).2.
Proof.
  intros Hwf. rewrite post_save_strict_eq. cbn zeta.
  destruct (post_invalid req); [by apply step_ok_same|].
  destruct (body_code (body req)) as [| |b|k| |s]; try by apply step_ok_same.
  destruct (50 <? _); [by apply step_ok_same|].
  destruct (down w); [by apply step_ok_same|].
  destruct (sql_insert _ _ _ _ _ _) as [[d i]|] eqn:Hrun; [|by apply step_ok_same].
  pose proof (sql_insert_wf _ _ _ _ _ _ _ _ Hwf Hrun) as Hwf'.
  apply sql_insert_Some in Hrun as (c' & n' & q' & _ & _ & _ & _ & -> & ->).
  unfold step_ok. cbn. split; [done|]. split; [lia|]. intros ? [= <-]. lia.
Qed.

Lemma route_strict_step e req (w : World (V := strict_js)) :
  wf_db (db w) -> step_ok w (serve (route_strict e) req w).2.
Proof.
  destruct e; cbn [route_strict];
    auto using post_save_strict_step, put_save_step, delete_delete_step,
      get_records_step, get_recover_step, get_export_step.
Qed.

(** X11. Both deployments keep what the schema promises: starting from
    the table [initDatabase] creates, and from any database where [id] is a
    key drawn from the sequence, every run of requests ends in such a
    database again, and the sequence never moves back. *)
Theorem runs_keep_invariant (calls : list Call) :
  wf_db (empty_db (V := server_js)) /\ wf_db (empty_db (V := strict_js))
  /\ (forall w : World (V := server_js),
        wf_db (db w) ->
        wf_db (db (run_server calls w))
        /\ id_seq (db w) <= id_seq (db (run_server calls w)))
  /\ (forall w : World (V := strict_js),
        wf_db (db w) ->
        wf_db (db (run_strict calls w))
        /\ id_seq (db w) <= id_seq (db (run_strict calls w))).
Proof.
  split; [apply empty_db_wf|]. split; [apply empty_db_wf|]. split.
  - intros w Hwf. by destruct (run_server_ok calls w Hwf) as (? & ? & _).
  - induction calls as [|[e req] calls IH]; intros w Hwf; cbn [run_strict].
    { split; [done|lia]. }
    destruct (route_strict_step e req w Hwf) as (Hwf' & Hle & _).
    destruct (IH _ Hwf') as [? ?]. split; [done|lia].
Qed.

(** ** Records keep their identity *)

Section Identity.
Context {V : Variant}.

Lemma kept_refl (d : Db) : Forall (kept d) (table d).
Proof. apply Forall_forall. intros r Hr. by exists r. Qed.

Lemma kept_filter (P : ScanRecord -> Prop) `{!forall r, Decision (P r)} (d : Db) :
  Forall (kept d) (filter P (table d)).
Proof. apply Forall_filter_keep, kept_refl. Qed.

Lemma kept_update c n q i sid (d d' : Db) k :
  sql_update c n q i sid d = Some (d', k) -> Forall (kept d) (table d').
Proof.
  intros (c' & n' & q' & i' & _ & _ & _ & _ & -> & _ & _)%sql_update_Some.
  apply Forall_forall. intros r' (r & -> & Hr)%list_elem_of_fmap.
  exists r. by destruct (owned i' sid r).
Qed.

Lemma kept_delete i sid (d d' : Db) k :
  sql_delete i sid d = Some (d', k) -> Forall (kept d) (table d').
Proof. intros (i' & _ & -> & _)%sql_delete_Some. apply kept_filter. Qed.

Lemma kept_insert t c n q sid (d d' : Db) i :
  sql_insert t c n q sid d = Some (d', i) ->
  Forall (fun r' => kept d r'
                    \/ (id r' = id_seq d /\ session_id r' = sid /\ created_at r' = t))
         (table d').
Proof.
  intros (c' & n' & q' & _ & _ & _ & _ & _ & ->)%sql_insert_Some. cbn [table].
  apply Forall_app. split.
  - eapply Forall_impl; [apply kept_refl|]. by left.
  - apply Forall_singleton. by right.
Qed.

Lemma kept_or {P : ScanRecord -> Prop} (d : Db) l :
  Forall (kept d) l -> Forall (fun r' => kept d r' \/ P r') l.
Proof. intros H. eapply Forall_impl; [exact H|]. by left. Qed.

Lemma shared_endpoints_keep (h : Request -> M unit) req w :
  h = put_save \/ h = delete_delete \/ h = get_records \/ h = get_recover
  \/ h = get_export ->
  Forall (kept (db w)) (table (db (serve h req w).2)).
Proof.
  intros Hh. destruct Hh as [->|[->|[->|[->| ->]]]].
  - rewrite put_save_eq. destruct (put_invalid req); [apply kept_refl|]. cbn zeta.
    destruct (down w); [apply kept_refl|].
    destruct (put_run req (db w)) as [[d k]|] eqn:Hrun; [|apply kept_refl].
    cbn. by eapply kept_update.
  - rewrite delete_delete_eq. destruct (delete_invalid req); [apply kept_refl|].
    cbn zeta. destruct (down w); [apply kept_refl|].
    destruct (sql_delete _ _ _) as [[d k]|] eqn:Hrun; [|apply kept_refl].
    cbn. by eapply kept_delete.
  - rewrite get_records_eq. cbn zeta. destruct (down w); apply kept_refl.
  - rewrite get_recover_eq. cbn zeta. destruct (down w); apply kept_refl.
  - rewrite get_export_eq. cbn zeta. destruct (down w); [apply kept_refl|].
    destruct (writer_fails w); [apply kept_refl|].
    destruct (down _); [apply kept_refl|]. cbn. apply kept_filter.
Qed.

End Identity.

(** X12. In both deployments no endpoint ever changes the id, the
    session or the creation time of a record: every record in the table
    after a request was there before under the same id, session and
    creation time, except the one record a [POST /save] inserts, which
    takes the sequence's value, the request's session and the store's
    clock. *)
Theorem records_keep_identity (e : Endpoint) (req : Request) :
  (forall w : World (V := server_js),
      Forall (fun r' => kept (db w) r' \/ (e = POST_save /\ fresh req w r'))
             (table (db (serve (route_server e) req w).2)))
  /\ (forall w : World (V := strict_js),
      Forall (fun r' => kept (db w) r' \/ (e = POST_save /\ fresh req w r'))
             (table (db (serve (route_strict e) req w).2))).
Proof.
  split; intros w.
  - destruct e; cbn [route_server];
      try (apply kept_or, shared_endpoints_keep; tauto).
    rewrite post_save_eq. destruct (post_invalid req); [apply kept_or, kept_refl|].
    cbn zeta. destruct (down w); [apply kept_or, kept_refl|].
    destruct (post_run _ _ _) as [[d i]|] eqn:Hrun; [|apply kept_or, kept_refl].
    cbn. eapply Forall_impl; [exact (kept_insert _ _ _ _ _ _ _ _ Hrun)|].
    intros r' [?|?]; [by left|by right].
  - destruct e; cbn [route_strict];
      try (apply kept_or, shared_endpoints_keep; tauto).
    rewrite post_save_strict_eq. cbn zeta.
    destruct (post_invalid req); [apply kept_or, kept_refl|].
    destruct (body_code (body req)) as [| |b|k| |s]; try apply kept_or, kept_refl.
    destruct (50 <? _); [apply kept_or, kept_refl|].
    destruct (down w); [apply kept_or, kept_refl|].
    destruct (sql_insert _ _ _ _ _ _) as [[d i]|] eqn:Hrun; [|apply kept_or, kept_refl].
    cbn. eapply Forall_impl; [exact (kept_insert _ _ _ _ _ _ _ _ Hrun)|].
    intros r' [?|?]; [by left|by right].
Qed.

(** ** The aggregation loses nothing *)

Section Conservation.
Context {V : Variant}.




End Conservation.



(** ** What Create stores *)

Lemma bind_text_truthy v n : js_not v = false -> bind_text v = Some n -> n = ToString v.
Proof. unfold bind_text. destruct v; cbn; congruence. Qed.


Lemma append_changes {A} (l : list A) x : l ++ [x] <> l.
Proof.
  intros H. apply (f_equal length) in H. rewrite length_app in H. cbn in H. lia.
Qed.


(** X15. In [backend/server.js] [POST /save] changes the database
    exactly when it answers 200; it then has appended one record, holding
    the request's code, name and quantity as the store read them, the
    sequence's value as id and the request's session, and has advanced the
    sequence by one.  No other row is touched. *)
Theorem create_appends_one_record (req : Request) (w : World (V := server_js)) :
  (status_sent (serve post_save req w).2 = Some 200
   <-> db (serve post_save req w).2 <> db w)
  /\ (status_sent (serve post_save req w).2 = Some 200 ->
      exists c n q r,
        bind_code (V := server_js) (body_code (body req)) = Some c
        /\ n = ToString (body_name (body req))
        /\ bind_int4 (body_quantity (body req)) = Some q
        /\ table (db (serve post_save req w).2) = table (db w) ++ [r]
        /\ id_seq (db (serve post_save req w).2) = id_seq (db w) + 1
        /\ id r = id_seq (db w) /\ code r = c /\ name r = n /\ quantity r = q
        /\ session_id r = getSessionId req /\ created_at r = now w).
Proof.
  rewrite post_save_eq.
  destruct (post_invalid req) eqn:Hv; [by split|]. cbn zeta.
  destruct (down w); [by split|].
  destruct (post_run _ _ _) as [[d i]|] eqn:Hrun; [|by split].
  apply sql_insert_Some in Hrun as (c' & n' & q' & Hc & Hn & Hq & _ & -> & ->).
  unfold post_invalid in Hv.
  apply orb_false_elim in Hv as [[Hvc Hvn]%orb_false_elim Hvq].
  apply bind_text_truthy in Hn; [|done].
  cbn [snd db answer with_sent with_db status_sent sent fmap option_fmap option_map
         status]. split.
  - split; [intros _|done]. intros Heq. apply (f_equal table) in Heq.
    cbn in Heq. by apply append_changes in Heq.
  - intros _. eexists c', n', q', _. cbn. done.
Qed.

(** X16. In the stricter deployment [POST /save] leaves a request
    unanswered exactly when its three fields are truthy and the code is a
    number; then the handler's promise has rejected, and nothing was sent
    to the store or stored.  In every other case the promise resolves. *)
Theorem strict_create_unanswered_iff_numeric_code
    (req : Request) (w : World (V := strict_js)) :
  (sent (serve post_save_strict req w).2 = None
   <-> post_invalid req = false /\ typeof (body_code (body req)) = "number")
  /\ ((serve post_save_strict req w).1 = Returned ()
      <-> is_Some (sent (serve post_save_strict req w).2))
  /\ (sent (serve post_save_strict req w).2 = None ->
      (serve post_save_strict req w).1
      = Thrown (TypeError "Assignment to constant variable.")
      /\ new_statements w (serve post_save_strict req w).2 = []
      /\ db (serve post_save_strict req w).2 = db w).
Proof.
  assert (forall w' : World (V := strict_js),
             issued w' = issued w -> new_statements w w' = []) as Hnew.
  { intros w' Hw'. apply new_statements_app. by rewrite app_nil_r. }
  rewrite post_save_strict_eq. cbn zeta.
  destruct (post_invalid req) eqn:Hv.
  { split; [split; [done|by intros [? _]]|]. split; [|done].
    split; [by eexists|done]. }
  destruct (body_code (body req)) as [| |b|k| |s] eqn:Hcode.
  - split; [split; [done|by intros [_ ?]]|]. split; [|done]. split; [by eexists|done].
  - split; [split; [done|by intros [_ ?]]|]. split; [|done]. split; [by eexists|done].
  - split; [split; [done|by intros [_ ?]]|]. split; [|done]. split; [by eexists|done].
  - split; [done|]. split; [split; [done|by intros [? ?]]|].
    intros _. split; [done|]. split; [by apply Hnew|done].
  - split; [done|]. split; [split; [done|by intros [? ?]]|].
    intros _. split; [done|]. split; [by apply Hnew|done].
  - assert (typeof (JString s) <> "number") as Hty by done.
    destruct (50 <? _).
    { split; [split; [done|by intros [_ ?]]|]. split; [|done]. split; [by eexists|done]. }
    destruct (down w).
    { split; [split; [done|by intros [_ ?]]|]. split; [|done]. split; [by eexists|done]. }
    destruct (sql_insert _ _ _ _ _ _) as [[d i]|];
      (split; [split; [done|by intros [_ ?]]|]; split; [|done];
       split; [by eexists|done]).
Qed.

(** ** The id in the path: what the handlers test and what the store reads *)











(** The ids [DELETE] lets through and the store refuses: a fraction, a
    hexadecimal literal, an exponent, a number beyond 32 bits. *)
Example ids_only_the_store_refuses :
  Forall (fun i => delete_invalid (request "s1" i JUndefined JUndefined JUndefined)
                   = false /\ pg_int4_in i = None)
         ["1.5"; "0x10"; "1e3"; "99999999999"; "Infinity"].
Proof. repeat constructor. Qed.



(** ** The quantity in the body: the store's reading and [parseInt] *)









(** The converse does not hold: [parseInt] reads the digits in front of a
    text the store refuses. *)
Example parseInt_reads_a_prefix :
  bind_int4 (JString "12abc") = None
  /\ bind_int4 (parseInt (JString "12abc")) = Some 12
  /\ bind_int4 (JString "0x10") = None
  /\ bind_int4 (parseInt (JString "0x10")) = Some 16.
Proof. done. Qed.

(** ** The code in [PUT /save/:id] of the stricter deployment *)

Lemma length_chars s : length (chars s) = String.length s.
Proof. induction s as [|c s IH]; cbn; [done|]. by f_equal. Qed.

Lemma numeral_no_space n :
  Forall (fun c => c <> " "%char) (chars (Number_toString n)).
Proof.
  destruct (Number_toString_chars n) as (ds & -> & _ & Hds & _).
  apply Forall_app. split.
  - destruct (n <? 0); [|done]. by apply Forall_cons.
  - apply Forall_forall. intros c Hc Heq. subst c.
    rewrite forallb_forall in Hds.
    apply list_elem_of_In in Hc. by apply Hds in Hc.
Qed.

(** A [VARCHAR(50)] column takes a text without spaces whole or not at
    all. *)
Lemma pg_varchar50_in_no_space s c :
  Forall (fun x => x <> " "%char) (chars s) ->
  pg_varchar50_in s = Some c -> c = s.
Proof.
  intros Hs. unfold pg_varchar50_in. case_bool_decide as Hlen; [congruence|].
  destruct (drop 50 (chars s)) as [|x l] eqn:Hd.
  - apply (f_equal length) in Hd. rewrite length_drop, length_chars in Hd.
    cbn in Hd. lia.
  - assert (x ∈ chars s) as Hx.
    { apply (subseteq_drop 50). rewrite Hd. apply list_elem_of_here. }
    rewrite Forall_forall in Hs. apply Hs in Hx. cbn.
    by rewrite bool_decide_eq_false_2.
Qed.

Lemma pg_varchar50_in_None s : pg_varchar50_in s = None -> (50 < String.length s)%nat.
Proof.
  unfold pg_varchar50_in. case_bool_decide as Hlen; [done|]. lia.
Qed.

Lemma put_invalid_post req : put_invalid req = false -> post_invalid req = false.
Proof.
  unfold put_invalid, post_invalid. by intros [? _]%orb_false_elim.
Qed.

(** X20. [PUT /save/:id] of the stricter deployment has none of the
    tests [POST /save] makes on the code.  With a number as code (a safe
    integer) a successful update stores its decimal numeral in the one row
    it overwrites, where [POST /save] with the same body throws on the
    assignment to [code] and answers nothing. *)
Theorem strict_update_stores_numeral
    (req : Request) (w : World (V := strict_js)) (k : Z) :
  body_code (body req) = JNumber k ->
  Z.abs k <= 9007199254740991 ->
  wf_db (db w) ->
  status_sent (serve put_save req w).2 = Some 200 ->
  (exists i l1 r r' l2,
      pg_int4_in (params_id req) = Some i
      /\ table (db w) = l1 ++ r :: l2
      /\ table (db (serve put_save req w).2) = l1 ++ r' :: l2
      /\ id r = i /\ id r' = i /\ session_id r' = getSessionId req
      /\ code r' = Number_toString k)
  /\ (serve post_save_strict req w).1
     = Thrown (TypeError "Assignment to constant variable.")
  /\ sent (serve post_save_strict req w).2 = None.
Proof.
  intros Hcode _ Hwf. rewrite (put_save_eq req w).
  destruct (put_invalid req) eqn:Hv; [done|]. cbn zeta.
  destruct (down w); [done|].
  destruct (put_run req (db w)) as [[d n]|] eqn:Hrun; [|done].
  destruct (bool_decide (n = 0%nat)) eqn:Hn; [done|]. intros _.
  apply bool_decide_eq_false in Hn.
  destruct (sql_update_one _ _ _ _ _ _ _ _ Hwf Hrun Hn)
    as (c' & n' & q' & i & l1 & r & l2 & Hc & _ & _ & Hi & Hl & Hri & Hrs & Ht & _).
  rewrite Hcode in Hc. unfold bind_code in Hc. cbn in Hc.
  apply pg_varchar50_in_no_space in Hc; [|apply numeral_no_space].
  split.
  - exists i, l1, r, (overwrite c' n' q' r), l2.
    cbn [snd db answer with_sent with_db]. by subst c'.
  - apply put_invalid_post in Hv.
    destruct (post_save_strict_number req w k Hcode Hv) as (H1 & H2 & _). done.
Qed.

Lemma strict_update_stores_numeral_witness :
  body_code (body (request "s1" "1" (JNumber 12345) (JString "Widget") (JNumber 5)))
  = JNumber 12345
  /\ Z.abs 12345 <= 9007199254740991
  /\ wf_db (db (quiet sample_strict_db))
  /\ status_sent
       (serve put_save (request "s1" "1" (JNumber 12345) (JString "Widget") (JNumber 5))
              (quiet sample_strict_db)).2 = Some 200
  /\ (exists i l1 r r' l2,
         pg_int4_in "1" = Some i
         /\ table sample_strict_db = l1 ++ r :: l2
         /\ table (db (serve put_save
                         (request "s1" "1" (JNumber 12345) (JString "Widget")
                                  (JNumber 5))
                         (quiet sample_strict_db)).2) = l1 ++ r' :: l2
         /\ id r = i /\ id r' = i /\ session_id r' = "s1"
         /\ code r' = Number_toString 12345)
  /\ (serve post_save_strict
            (request "s1" "1" (JNumber 12345) (JString "Widget") (JNumber 5))
            (quiet sample_strict_db)).1
     = Thrown (TypeError "Assignment to constant variable.")
  /\ sent (serve post_save_strict
                 (request "s1" "1" (JNumber 12345) (JString "Widget") (JNumber 5))
                 (quiet sample_strict_db)).2 = None.
Proof.
  assert (wf_db sample_strict_db) as Hwf.
  { split; cbn.
    - apply NoDup_cons. split; [apply not_elem_of_nil|apply NoDup_nil_2].
    - apply Forall_cons. split; [done|apply Forall_nil_2]. }
  split; [reflexivity|]. split; [done|]. split; [exact Hwf|]. split; [reflexivity|].
  exact (strict_update_stores_numeral
           (request "s1" "1" (JNumber 12345) (JString "Widget") (JNumber 5))
           (quiet sample_strict_db) 12345 eq_refl ltac:(done) Hwf eq_refl).
Defined.

(** X21. [PUT /save/:id] of the stricter deployment does not test the
    length of the code: a text the [VARCHAR(50)] column refuses goes to the
    store in an [UPDATE], which fails, and the answer is 500, where
    [POST /save] with the same body answers 400 before any statement.
    Either way no row changes. *)
Theorem strict_update_long_code
    (req : Request) (w : World (V := strict_js)) (s : string) :
  body_code (body req) = JString s ->
  pg_varchar50_in s = None ->
  put_invalid req = false ->
  store_up 0 w ->
  replied 500 (ErrorJson "Error interno del servidor") (serve put_save req w).2
  /\ new_statements w (serve put_save req w).2 = [put_stmt req]
  /\ db (serve put_save req w).2 = db w
  /\ replied 400 (TooLongJson "El código es demasiado largo" 50
                    (Z.of_nat (String.length s)))
       (serve post_save_strict req w).2
  /\ new_statements w (serve post_save_strict req w).2 = []
  /\ db (serve post_save_strict req w).2 = db w.
Proof.
  intros Hcode Hlong Hv Hup.
  assert (put_run req (db w) = None) as Hrun.
  { unfold put_run, sql_update, bind_code. rewrite Hcode. cbn. by rewrite Hlong. }
  destruct (put_save_failed req w Hv (or_intror Hrun)) as (H1 & H2 & H3).
  destruct (post_save_strict_too_long req w s Hcode (put_invalid_post _ Hv)
              (pg_varchar50_in_None _ Hlong)) as (H4 & H5 & H6).
  split; [done|]. split; [by apply new_statements_app|]. split; [done|].
  split; [done|]. split; [|done]. apply new_statements_app. by rewrite app_nil_r.
Qed.

Lemma strict_update_long_code_witness :
  body_code
    (body (request "s1" "1"
             (JString "0123456789012345678901234567890123456789012345678901234")
             (JString "Widget") (JNumber 5)))
  = JString "0123456789012345678901234567890123456789012345678901234"
  /\ pg_varchar50_in "0123456789012345678901234567890123456789012345678901234" = None
  /\ put_invalid
       (request "s1" "1"
          (JString "0123456789012345678901234567890123456789012345678901234")
          (JString "Widget") (JNumber 5)) = false
  /\ store_up 0 (quiet sample_strict_db)
  /\ replied 500 (ErrorJson "Error interno del servidor")
       (serve put_save
          (request "s1" "1"
             (JString "0123456789012345678901234567890123456789012345678901234")
             (JString "Widget") (JNumber 5))
          (quiet sample_strict_db)).2.
Proof.
  assert (store_up 0 (V := strict_js) (quiet sample_strict_db)) as H by done.
  split; [reflexivity|]. split; [reflexivity|]. split; [reflexivity|].
  split; [exact H|].
  exact (proj1 (strict_update_long_code
           (request "s1" "1"
              (JString "0123456789012345678901234567890123456789012345678901234")
              (JString "Widget") (JNumber 5))
           (quiet sample_strict_db)
           "0123456789012345678901234567890123456789012345678901234"
           eq_refl eq_refl eq_refl H)).
Defined.

(** ** The ways of [GET /export] *)

(** X22. The promise of [GET /export] rejects exactly when the
    aggregate query and the writer succeed and the purge meets an outage:
    the [catch] block then answers on a response that has gone out, which
    throws.  In that case the client has the spreadsheet with status 200,
    both statements were sent and the session's records are all still
    there.  In every other case the promise resolves. *)
Theorem export_rejects_iff_purge_outage `{V : Variant} (req : Request) (w : World) :
  ((serve get_export req w).1 = Thrown ERR_HTTP_HEADERS_SENT
   <-> store_up 0 w /\ writer_fails w = false /\ ~ store_up 1 w)
  /\ ((serve get_export req w).1 = Thrown ERR_HTTP_HEADERS_SENT
      \/ (serve get_export req w).1 = Returned ())
  /\ ((serve get_export req w).1 = Thrown ERR_HTTP_HEADERS_SENT ->
      sent (serve get_export req w).2
      = Some (export_response (today w) (sql_totals (getSessionId req) (db w)))
      /\ new_statements w (serve get_export req w).2
         = [SELECT_SUM (getSessionId req); DELETE_SESSION (getSessionId req)]
      /\ db (serve get_export req w).2 = db w).
Proof.
  destruct (store_up_dec 0 w) as [Hup|Hdown].
  - destruct (writer_fails w) eqn:Hw.
    + rewrite get_export_writer_fails by done. cbn.
      split; [split; [done|by intros (_ & ? & _)]|]. split; [by right|done].
    + destruct (get_export_built req w Hup Hw) as (Hsent & Hiss & Hok & Hko).
      destruct (store_up_dec 1 w) as [H1|H1].
      * destruct (Hok H1) as [Hr _]. rewrite Hr.
        split; [split; [done|by intros (_ & _ & ?)]|]. split; [by right|done].
      * destruct (Hko H1) as [Hr Hdb]. rewrite Hr.
        split; [done|]. split; [by left|]. intros _.
        split; [done|]. split; [by apply new_statements_app|done].
  - rewrite get_export_query_down by done. cbn.
    split; [split; [done|by intros (? & _)]|]. split; [by right|done].
Qed.

(** ** The error log *)

(** X23. An endpoint of [backend/server.js] writes to the error log
    exactly when it answers 500 or its promise rejects; it then writes one
    line, its own label.  Answers 200, 400 and 404 leave the log alone. *)
Theorem errors_are_logged
    (e : Endpoint) (req : Request) (w : World (V := server_js)) :
  (console (serve (route_server e) req w).2 <> console w
   <-> status_sent (serve (route_server e) req w).2 = Some 500
       \/ (serve (route_server e) req w).1 <> Returned ())
  /\ (console (serve (route_server e) req w).2 = console w
      \/ console (serve (route_server e) req w).2 = console w ++ [error_label e]).
Proof.
  pose proof (append_changes (console w)) as Hc.
  assert (forall P : Prop, (console w <> console w <-> P) <-> ~ P) as Hsame.
  { intros P. split; [intros [_ H] HP; by apply H in HP|].
    intros HP. split; [done|]. intros. done. }
  by_endpoint e.
  - destruct (post_invalid req); cbn; [split; [|by left]; apply Hsame; by intros [?|?]|].
    destruct (down w); cbn; [split; [|by right]; split; auto|].
    destruct (post_run _ _ _) as [[d i]|]; cbn;
      [split; [|by left]; apply Hsame; by intros [?|?]|split; [|by right]; split; auto].
  - destruct (put_invalid req); cbn; [split; [|by left]; apply Hsame; by intros [?|?]|].
    destruct (down w); cbn; [split; [|by right]; split; auto|].
    destruct (put_run _ _) as [[d k]|]; cbn; [|split; [|by right]; split; auto].
    destruct (bool_decide (k = 0%nat)); cbn;
      (split; [|by left]; apply Hsame; by intros [?|?]).
  - destruct (delete_invalid req); cbn; [split; [|by left]; apply Hsame; by intros [?|?]|].
    destruct (down w); cbn; [split; [|by right]; split; auto|].
    destruct (sql_delete _ _ _) as [[d k]|]; cbn; [|split; [|by right]; split; auto].
    destruct (bool_decide (k = 0%nat)); cbn;
      (split; [|by left]; apply Hsame; by intros [?|?]).
  - destruct (down w); cbn;
      [split; [|by right]; split; auto|split; [|by left]; apply Hsame; by intros [?|?]].
  - destruct (down w); cbn;
      [split; [|by right]; split; auto|split; [|by left]; apply Hsame; by intros [?|?]].
  - destruct (down w); cbn; [split; [|by right]; split; auto|].
    destruct (writer_fails w); cbn; [split; [|by right]; split; auto|].
    destruct (down _); cbn.
    + split; [|by right]. split; [intros _; by right|auto].
    + split; [|by left]. apply Hsame. by intros [?|?].
Qed.

(** ** Listing *)

(** X24. [GET /records] and [GET /recover] send one [SELECT] and leave
    the database as it was, whatever the world; asked twice in a row with
    the store reachable, they give the same answer twice. *)
Theorem list_changes_nothing `{V : Variant} (req : Request) (w : World) :
  db (serve get_records req w).2 = db w
  /\ db (serve get_recover req w).2 = db w
  /\ new_statements w (serve get_records req w).2 = [SELECT (getSessionId req)]
  /\ new_statements w (serve get_recover req w).2 = [SELECT (getSessionId req)]
  /\ (store_up 0 w /\ store_up 1 w ->
      status_sent (serve get_records req w).2 = Some 200
      /\ sent (serve get_records req (serve get_records req w).2).2
         = sent (serve get_records req w).2
      /\ sent (serve get_recover req (serve get_records req w).2).2
         = sent (serve get_records req w).2).
Proof.
  rewrite (get_records_eq req w), (get_recover_eq req w). cbn zeta.
  split; [by destruct (down w)|]. split; [by destruct (down w)|].
  split; [destruct (down w); by apply new_statements_app|].
  split; [destruct (down w); by apply new_statements_app|].
  intros [Hup%down_store_up H1]. rewrite Hup. cbn [snd].
  split; [done|].
  rewrite get_records_eq, get_recover_eq. cbn zeta.
  assert (down (answer 200 (RowsJson (sql_select (getSessionId req) (db w)))
                  (with_issued (SELECT (getSessionId req)) (with_sent None w)))
          = false) as ->.
  { apply down_store_up. unfold answer.
    apply (store_up_next 0 (SELECT (getSessionId req)) (with_sent None w)) in H1.
    exact H1. }
  done.
Qed.

(** ** Requests without a session *)

Lemma route_strict_reads (e : Endpoint) (req req' : Request) :
  getSessionId req' = getSessionId req -> params_id req' = params_id req ->
  body req' = body req ->
  route_strict e req' = route_strict e req.
Proof.
  intros Hs Hi Hb.
  destruct e; unfold route_strict, post_save_strict, put_save, delete_delete,
    get_records, get_recover, get_export; by rewrite ?Hs, ?Hi, ?Hb.
Qed.

(** X25. The handlers of the stricter deployment read the
    [Authorization] header through [getSessionId] alone.  A request
    without the header, or with an empty one, is served in every endpoint
    and every world exactly as the same request with the header
    [anonymous]: all such clients share one session. *)
Theorem anonymous_session_shared
    (e : Endpoint) (req : Request) (w : World (V := strict_js)) :
  authorization req = None \/ authorization req = Some "" ->
  getSessionId req = "anonymous"
  /\ serve (route_strict e) req w = serve (route_strict e) (as_anonymous req) w.
Proof.
  intros H.
  assert (getSessionId req = "anonymous") as Hs.
  { unfold getSessionId. by destruct H as [-> | ->]. }
  split; [done|]. unfold serve.
  by rewrite (route_strict_reads e req (as_anonymous req)).
Qed.

Lemma anonymous_session_shared_witness :
  (authorization {| authorization := None; params_id := "";
                    body := {| body_code := JUndefined; body_name := JUndefined;
                               body_quantity := JUndefined |} |} = None
   \/ authorization {| authorization := None; params_id := "";
                       body := {| body_code := JUndefined; body_name := JUndefined;
                                  body_quantity := JUndefined |} |} = Some "")
  /\ getSessionId {| authorization := None; params_id := "";
                     body := {| body_code := JUndefined; body_name := JUndefined;
                                body_quantity := JUndefined |} |} = "anonymous"
  /\ serve (route_strict GET_records)
           {| authorization := None; params_id := "";
              body := {| body_code := JUndefined; body_name := JUndefined;
                         body_quantity := JUndefined |} |}
           (quiet sample_strict_db)
     = serve (route_strict GET_records) (get "anonymous") (quiet sample_strict_db).
Proof.
  split; [by left|].
  exact (anonymous_session_shared GET_records
           {| authorization := None; params_id := "";
              body := {| body_code := JUndefined; body_name := JUndefined;
                         body_quantity := JUndefined |} |}
           (quiet sample_strict_db) (or_introl eq_refl)).
Defined.
